(** * Approvr: the proposal/approval tallying engine of approvr-agent.js

    A shallow embedding of [createProposal], [submitApproval] and
    [tallyApprovals] and the properties of their response normalizers,
    record codec, tally and report. *)

From stdpp Require Import gmap list sorting pretty.
From Stdlib Require Import String Ascii ZArith Lia.

Local Open Scope Z_scope.
Local Open Scope list_scope.

(** ** JavaScript strings

    A JavaScript string is a finite sequence of UTF-16 code units.  The
    operations of the source that inspect characters ([trim], [\s], [.],
    [split], the default [sort] order) all work on code units, so a string is
    modelled as the list of its code units. *)

Abbreviation jsstring := (list N).

(** The code units of an ASCII literal. *)
Definition js (s : string) : jsstring :=
  map N_of_ascii (list_ascii_of_string s).
Arguments js s%_string.

(** Characters that cannot be written inside a literal. *)
Definition nl : jsstring := [10%N].
Definition dq : jsstring := [34%N].

(** [s.startsWith(pre)] *)
Fixpoint startsWith (pre s : jsstring) : bool :=
  match pre, s with
  | [], _ => true
  | p :: pre', c :: s' => if N.eqb p c then startsWith pre' s' else false
  | _ :: _, [] => false
  end.

(** [s.substring(n)] for [n >= 0], and [s.substring(0, n)]. *)
Definition substring_from (n : nat) (s : jsstring) : jsstring := drop n s.
Definition substring_to (n : nat) (s : jsstring) : jsstring := take n s.

(** ECMAScript LineTerminator: LF, CR, LS, PS. *)
Definition isLineTerminator (c : N) : bool :=
  (N.eqb c 10 || N.eqb c 13 || N.eqb c 8232 || N.eqb c 8233)%N.

(** ECMAScript WhiteSpace (TAB, VT, FF, ZWNBSP and the space separators)
    together with LineTerminator: the set stripped by [trim] and matched by
    the regular-expression class [\s]. *)
Definition isWhiteSpace (c : N) : bool :=
  (N.eqb c 9 || N.eqb c 11 || N.eqb c 12 || N.eqb c 32 || N.eqb c 160
   || N.eqb c 5760 || (N.leb 8192 c && N.leb c 8202) || N.eqb c 8239
   || N.eqb c 8287 || N.eqb c 12288 || N.eqb c 65279
   || isLineTerminator c)%N.

Fixpoint trimStart (s : jsstring) : jsstring :=
  match s with
  | c :: s' => if isWhiteSpace c then trimStart s' else s
  | [] => []
  end.

Definition trimEnd (s : jsstring) : jsstring := rev (trimStart (rev s)).

(** [s.trim()] *)
Definition trim (s : jsstring) : jsstring := trimEnd (trimStart s).

(** [s.includes(c)] for a one-character needle. *)
Definition includesChar (c : N) (s : jsstring) : bool := existsb (N.eqb c) s.

(** [s.split(sep)] for a one-character separator: always at least one
    segment. *)
Fixpoint split (sep : N) (s : jsstring) : list jsstring :=
  match s with
  | [] => [[]]
  | c :: s' =>
      if N.eqb c sep then [] :: split sep s'
      else match split sep s' with
           | seg :: segs => (c :: seg) :: segs
           | [] => [[c]]
           end
  end.

(** [xs.join(sep)] on an array of strings. *)
Fixpoint join (sep : jsstring) (xs : list jsstring) : jsstring :=
  match xs with
  | [] => []
  | [x] => x
  | x :: xs' => x ++ sep ++ join sep xs'
  end.

(** Number-to-string conversion of template literals and [toString], for the
    integers the callers pass as thresholds and the set sizes: the decimal
    digits.  This is what JavaScript prints for the safe integers (below
    2^53 in magnitude); a larger number is rounded and, from 10^21 on,
    printed in exponent notation: [safeInteger] is the bound under which
    the text is the one JavaScript prints. *)
Definition numberToString (z : Z) : jsstring := js (pretty z).

(** [Number.isSafeInteger(z)] *)
Definition safeInteger (z : Z) : Prop := Z.abs z < 2 ^ 53.

(** The default comparison of [Array.prototype.sort]: code-unit
    lexicographic order on strings. *)
Fixpoint str_leb (x y : jsstring) : bool :=
  match x, y with
  | [], _ => true
  | _ :: _, [] => false
  | a :: x', b :: y' =>
      if N.ltb a b then true
      else if N.eqb a b then str_leb x' y' else false
  end.

Definition str_le (x y : jsstring) : Prop := str_leb x y = true.

#[global] Instance str_le_dec x y : Decision (str_le x y).
Proof. unfold str_le. apply _. Defined.

(** [xs.sort()] on an array of strings. *)
Definition sort (xs : list jsstring) : list jsstring := merge_sort str_le xs.

(** ** JavaScript values and exceptions *)

(** A thrown value, as a [catch] block sees it: [null], [undefined], or any
    other value, kept as the text its [message] property renders to in a
    template literal (the message of an [Error]; the text [undefined] for a
    value without one). *)
Inductive thrown : Type :=
| ThrownNull
| ThrownUndefined
| ThrownError (message : jsstring).

(** The result of a call that may throw, and of an [async] function that
    may reject: the value returned, or the value thrown. *)
Inductive outcome (A : Type) : Type :=
| Returns (a : A)
| Throws (e : thrown).
Arguments Returns {A} a.
Arguments Throws {A} e.

#[global] Instance outcome_bind : MBind outcome := fun A B k o =>
  match o with
  | Returns a => k a
  | Throws e => Throws e
  end.

(** [throw new Error(msg)] *)
Definition throwError {A : Type} (msg : jsstring) : outcome A :=
  Throws (ThrownError msg).

(** Reading [e.message] on a caught value: a [TypeError] on [null] and on
    [undefined]. *)
Definition messageOf (e : thrown) : outcome jsstring :=
  match e with
  | ThrownError message => Returns message
  | ThrownNull =>
      throwError (js "Cannot read properties of null (reading 'message')")
  | ThrownUndefined =>
      throwError (js "Cannot read properties of undefined (reading 'message')")
  end.

(** The values a collaborator can hand back: the JSON values and objects of
    SDK classes.  A number is kept as its [Number::toString] rendering.
    An object carries its own fields and the behaviour of the [toString]
    method it gets from its class ([None]: no callable [toString]). *)
#[warnings="-register-all"]
Inductive value : Type :=
| VUndefined
| VNull
| VBool (b : bool)
| VNum (repr : jsstring)
| VStr (s : jsstring)
| VArr (items : list value)
| VObj (fields : list (jsstring * value)) (toStr : option (outcome jsstring)).

(** An object literal or an object built by [JSON.parse]: its [toString] is
    [Object.prototype.toString]. *)
Definition plainObject (fields : list (jsstring * value)) : value :=
  VObj fields (Some (Returns (js "[object Object]"))).

(** An object of an SDK class such as [TopicId], whose [toString] renders the
    identifier. *)
Definition sdkObject (rendering : jsstring) : value :=
  VObj [] (Some (Returns rendering)).

Inductive jstype : Type :=
| TUndefined | TObject | TBoolean | TNumber | TString.

#[global] Instance jstype_eq_dec : EqDecision jstype.
Proof. solve_decision. Defined.

(** [typeof v] *)
Definition typeof (v : value) : jstype :=
  match v with
  | VUndefined => TUndefined
  | VNull => TObject
  | VBool _ => TBoolean
  | VNum _ => TNumber
  | VStr _ => TString
  | VArr _ => TObject
  | VObj _ _ => TObject
  end.

Definition typeName (t : jstype) : jsstring :=
  match t with
  | TUndefined => js "undefined"
  | TObject => js "object"
  | TBoolean => js "boolean"
  | TNumber => js "number"
  | TString => js "string"
  end.

Definition isUndefined (v : value) : bool :=
  match v with VUndefined => true | _ => false end.

Definition isNull (v : value) : bool :=
  match v with VNull => true | _ => false end.

(** Truthiness, as tested by [&&], [!] and [if]. *)
Definition truthy (v : value) : bool :=
  match v with
  | VUndefined => false
  | VNull => false
  | VBool b => b
  | VNum repr =>
      negb (bool_decide (repr = js "0") || bool_decide (repr = js "NaN"))
  | VStr s => negb (bool_decide (s = []))
  | VArr _ => true
  | VObj _ _ => true
  end.

Fixpoint lookupField (k : jsstring) (fields : list (jsstring * value))
  : option value :=
  match fields with
  | [] => None
  | (k', v) :: rest => if bool_decide (k' = k) then Some v else lookupField k rest
  end.

(** [v.k] for a named (non-index) key [k]; the source reads properties only
    behind a truthiness guard, so the receiver is never [null] or
    [undefined]. *)
Definition get (v : value) (k : jsstring) : value :=
  match v with
  | VObj fields _ => default VUndefined (lookupField k fields)
  | _ => VUndefined
  end.

(** The abstract operation ToString: arrays join their elements with a
    comma, [null] and [undefined] elements rendering as the empty string. *)
Fixpoint ToString (v : value) : outcome jsstring :=
  match v with
  | VUndefined => Returns (js "undefined")
  | VNull => Returns (js "null")
  | VBool true => Returns (js "true")
  | VBool false => Returns (js "false")
  | VNum repr => Returns repr
  | VStr s => Returns s
  | VArr items =>
      (fix joinItems (xs : list value) : outcome jsstring :=
         match xs with
         | [] => Returns []
         | x :: xs' =>
             s ← match x with
                 | VUndefined | VNull => Returns []
                 | _ => ToString x
                 end;
             match xs' with
             | [] => Returns s
             | _ :: _ => rest ← joinItems xs'; Returns (s ++ js "," ++ rest)
             end
         end) items
  | VObj fields toStr =>
      match lookupField (js "toString") fields, toStr with
      | None, Some o => o
      | _, _ => throwError (js "Cannot convert object to primitive value")
      end
  end.

(** [typeof v.toString === 'function'] on an object-typed [v], with the
    outcome of calling it: an own data field named [toString] hides the
    method. *)
Definition toStringMethod (v : value) : option (outcome jsstring) :=
  match v with
  | VArr _ => Some (ToString v)
  | VObj fields toStr =>
      match lookupField (js "toString") fields with
      | Some _ => None
      | None => toStr
      end
  | _ => None
  end.

Definition hasToString (v : value) : bool :=
  match toStringMethod v with Some _ => true | None => false end.

(** [v.toString()] behind the guard [typeof v.toString === 'function'], as
    [createProposal] calls it; without the guard the [TypeError] of a
    missing method names the receiver, see [invokeToString]. *)
Definition callToString (v : value) : outcome jsstring :=
  default (throwError (js "toString is not a function")) (toStringMethod v).

(** [expr.toString()] on a value other than [null] and [undefined], [expr]
    being the source text of the receiver. *)
Definition invokeToString (expr : jsstring) (v : value) : outcome jsstring :=
  match v with
  | VArr _ | VObj _ _ =>
      default (throwError (expr ++ js ".toString is not a function"))
              (toStringMethod v)
  | _ => ToString v
  end.

(** The string a string-typed value holds. *)
Definition stringOf (v : value) : option jsstring :=
  match v with VStr s => Some s | _ => None end.

(** ** Results of the three public operations *)

Record ProposalResult : Type := {
  cp_topicId : option jsstring;   (* [None] is [null] *)
  cp_status : jsstring;
  cp_message : jsstring }.

Record ApprovalResult : Type := {
  sa_status : jsstring;
  sa_message : jsstring }.

Record TallyResult : Type := {
  ta_status : jsstring;
  ta_approvals : nat;
  ta_isApproved : bool;
  ta_message : jsstring }.

(** The three tools of the Hedera agent kit the module looks up at start-up;
    [tools.x.invoke(args)] either returns a value or throws. *)
Record Tools : Type := {
  createTopic : jsstring -> outcome value;              (* memo *)
  submitMessage : value -> jsstring -> outcome value;   (* topicId, message *)
  getMessages : jsstring -> outcome value }.             (* topicId *)

(** ** A JSON reader

    [JSON.parse] is a built-in of the platform, and the operations below take
    it as a parameter.  [parseJSON] is an executable instance for concrete
    responses: it reads JSON texts whose number literals are integers of at
    most 15 digits (no fraction, no exponent) and rejects every other text. *)

Definition isJSONSpace (c : N) : bool :=
  (N.eqb c 32 || N.eqb c 9 || N.eqb c 10 || N.eqb c 13)%N.

Fixpoint skipSpaces (s : jsstring) : jsstring :=
  match s with
  | c :: s' => if isJSONSpace c then skipSpaces s' else s
  | [] => []
  end.

Definition isDigit (c : N) : bool := (N.leb 48 c && N.leb c 57)%N.

Definition hexDigit (c : N) : option N :=
  if (N.leb 48 c && N.leb c 57)%N then Some (c - 48)%N
  else if (N.leb 65 c && N.leb c 70)%N then Some (c - 55)%N
  else if (N.leb 97 c && N.leb c 102)%N then Some (c - 87)%N
  else None.

(** The characters of a string literal after its opening quote, and the text
    after its closing quote. *)
Fixpoint readString (s : jsstring) : option (jsstring * jsstring) :=
  match s with
  | [] => None
  | 34%N :: rest => Some ([], rest)
  | 92%N :: 117%N :: a :: b :: c :: d :: rest =>
      h1 ← hexDigit a; h2 ← hexDigit b; h3 ← hexDigit c; h4 ← hexDigit d;
      '(str, rest') ← readString rest;
      Some ((h1 * 4096 + h2 * 256 + h3 * 16 + h4)%N :: str, rest')
  | 92%N :: e :: rest =>
      c ← (if N.eqb e 34 then Some 34 else if N.eqb e 92 then Some 92
           else if N.eqb e 47 then Some 47 else if N.eqb e 98 then Some 8
           else if N.eqb e 102 then Some 12 else if N.eqb e 110 then Some 10
           else if N.eqb e 114 then Some 13 else if N.eqb e 116 then Some 9
           else None)%N;
      '(str, rest') ← readString rest;
      Some (c :: str, rest')
  | c :: rest =>
      if N.ltb c 32 then None
      else '(str, rest') ← readString rest; Some (c :: str, rest')
  end.

Fixpoint readDigits (s : jsstring) : jsstring * jsstring :=
  match s with
  | c :: s' =>
      if isDigit c then let '(ds, rest) := readDigits s' in (c :: ds, rest)
      else ([], s)
  | [] => ([], [])
  end.

(** An integer literal, as the rendering of its value. *)
Definition readNumber (s : jsstring) : option (jsstring * jsstring) :=
  let '(neg, s1) :=
    match s with 45%N :: s' => (true, s') | _ => (false, s) end in
  let '(ds, rest) := readDigits s1 in
  let wellFormed :=
    match ds with
    | [] => false
    | [_] => true
    | d :: _ => negb (N.eqb d 48)
    end in
  let continues :=
    match rest with
    | c :: _ => (N.eqb c 46 || N.eqb c 101 || N.eqb c 69)%N
    | [] => false
    end in
  if wellFormed && negb continues && bool_decide (List.length ds ≤ 15)%nat then
    Some (if neg && negb (bool_decide (ds = js "0")) then 45%N :: ds else ds,
          rest)
  else None.

(** [obj[k] = v] while an object literal is read: a repeated key keeps its
    place and takes the later value. *)
Fixpoint setField (k : jsstring) (v : value) (fields : list (jsstring * value))
  : list (jsstring * value) :=
  match fields with
  | [] => [(k, v)]
  | (k', v') :: rest =>
      if bool_decide (k' = k) then (k, v) :: rest
      else (k', v') :: setField k v rest
  end.

Fixpoint readValue (fuel : nat) (s : jsstring) : option (value * jsstring) :=
  match fuel with
  | O => None
  | S fuel' =>
      match skipSpaces s with
      | 110%N :: 117%N :: 108%N :: 108%N :: rest => Some (VNull, rest)
      | 116%N :: 114%N :: 117%N :: 101%N :: rest => Some (VBool true, rest)
      | 102%N :: 97%N :: 108%N :: 115%N :: 101%N :: rest =>
          Some (VBool false, rest)
      | 34%N :: rest =>
          '(str, rest') ← readString rest; Some (VStr str, rest')
      | 91%N :: rest =>
          match skipSpaces rest with
          | 93%N :: rest' => Some (VArr [], rest')
          | _ => '(items, rest') ← readElements fuel' rest;
                 Some (VArr items, rest')
          end
      | 123%N :: rest =>
          match skipSpaces rest with
          | 125%N :: rest' => Some (plainObject [], rest')
          | _ => '(members, rest') ← readMembers fuel' rest;
                 Some (plainObject
                         (foldl (fun acc kv => setField kv.1 kv.2 acc) [] members),
                       rest')
          end
      | rest => '(repr, rest') ← readNumber rest; Some (VNum repr, rest')
      end
  end
with readElements (fuel : nat) (s : jsstring)
  : option (list value * jsstring) :=
  match fuel with
  | O => None
  | S fuel' =>
      '(v, rest) ← readValue fuel' s;
      match skipSpaces rest with
      | 44%N :: rest' =>
          '(vs, rest'') ← readElements fuel' rest'; Some (v :: vs, rest'')
      | 93%N :: rest' => Some ([v], rest')
      | _ => None
      end
  end
with readMembers (fuel : nat) (s : jsstring)
  : option (list (jsstring * value) * jsstring) :=
  match fuel with
  | O => None
  | S fuel' =>
      match skipSpaces s with
      | 34%N :: rest =>
          '(k, rest1) ← readString rest;
          match skipSpaces rest1 with
          | 58%N :: rest2 =>
              '(v, rest3) ← readValue fuel' rest2;
              match skipSpaces rest3 with
              | 44%N :: rest4 =>
                  '(ms, rest5) ← readMembers fuel' rest4;
                  Some ((k, v) :: ms, rest5)
              | 125%N :: rest4 => Some ([(k, v)], rest4)
              | _ => None
              end
          | _ => None
          end
      | _ => None
      end
  end.

Definition parseJSON (text : jsstring) : option value :=
  '(v, rest) ← readValue (2 * List.length text + 2) text;
  match skipSpaces rest with
  | [] => Some v
  | _ :: _ => None
  end.

(** The JSON text of an object whose [messages] field is an array holding
    one object with [message] equal to [APPROVE:a]. *)
Definition wrappedMessagesText : jsstring :=
  js "{" ++ dq ++ js "messages" ++ dq ++ js ":[{" ++ dq ++ js "message" ++ dq
  ++ js ":" ++ dq ++ js "APPROVE:a" ++ dq ++ js "}]}".

(** ** Record codec *)

(** The initial message [createProposal] appends to the new topic. *)
Definition initialMessage (proposalDescription : jsstring)
    (approvers : list jsstring) (threshold : Z) : jsstring :=
  js "Proposal: " ++ proposalDescription ++ nl
  ++ js "Approvers: " ++ join (js ", ") approvers ++ nl
  ++ js "Threshold: " ++ numberToString threshold.

(** The message [submitApproval] appends. *)
Definition approvalMessage (approverAccountId : jsstring) : jsstring :=
  js "APPROVE:" ++ approverAccountId.

(** [(.+)$]: one or more characters other than line terminators, up to the
    end of the input. *)
Definition matchDotPlusEnd (s : jsstring) : option jsstring :=
  match s with
  | [] => None
  | _ :: _ => if forallb (fun c => negb (isLineTerminator c)) s
              then Some s else None
  end.

(** [\s*(.+)$] with the greedy star and its backtracking: take one more
    white-space character if the rest then matches, otherwise stop here.
    Returns capture group 1. *)
Fixpoint matchSpacesDotPlusEnd (s : jsstring) : option jsstring :=
  match s with
  | c :: s' =>
      if isWhiteSpace c then
        match matchSpacesDotPlusEnd s' with
        | Some g => Some g
        | None => matchDotPlusEnd s
        end
      else matchDotPlusEnd s
  | [] => matchDotPlusEnd []
  end.

(** [descLine.match(/^Proposal:\s*(.+)$/)], giving capture group 1. *)
Definition descMatch (descLine : jsstring) : option jsstring :=
  if startsWith (js "Proposal:") descLine
  then matchSpacesDotPlusEnd (substring_from (List.length (js "Proposal:")) descLine)
  else None.

Definition descriptionPlaceholder : jsstring := js "Proposal details not found.".

(** The description [tallyApprovals] reads from the content of a proposal
    message: the first line, matched and trimmed; the placeholder stays when
    the line does not match. *)
Definition decodeDescription (content : jsstring) : jsstring :=
  match split 10 content with
  | descLine :: _ =>
      match descMatch descLine with
      | Some g => if bool_decide (g = []) then descriptionPlaceholder else trim g
      | None => descriptionPlaceholder
      end
  | [] => descriptionPlaceholder
  end.

(** The text of a log entry: [msgObj.message] when [msgObj] is a non-null
    object whose [message] is a string; other entries are skipped. *)
Definition messageContent (msgObj : value) : option jsstring :=
  if truthy msgObj && bool_decide (typeof msgObj = TObject) then
    match get msgObj (js "message") with
    | VStr s => Some s
    | _ => None
    end
  else None.

(** [Array.isArray(v)] and the elements of an array. *)
Definition isArray (v : value) : bool :=
  match v with VArr _ => true | _ => false end.

Definition itemsOf (v : value) : list value :=
  match v with VArr items => items | _ => [] end.

(** The search for the array of messages in the parsed response; [messages]
    stays the empty array when none is found. *)
Definition messagesOf (parsedMessagesResponse : value) : list value :=
  if isArray parsedMessagesResponse then itemsOf parsedMessagesResponse
  else if truthy parsedMessagesResponse
          && bool_decide (typeof parsedMessagesResponse = TObject)
  then
    if isArray (get parsedMessagesResponse (js "messages"))
    then itemsOf (get parsedMessagesResponse (js "messages"))
    else []
  else [].

(** [hay.includes(needle)] *)
Fixpoint includes (needle hay : jsstring) : bool :=
  startsWith needle hay
  || match hay with
     | [] => false
     | _ :: hay' => includes needle hay'
     end.

(** ** Tally *)

(** One iteration of the counting loop over [messages]. *)
Definition tallyStep (approvers : list jsstring)
    (validApprovals : gset jsstring) (msgObj : value) : gset jsstring :=
  match messageContent msgObj with
  | Some content =>
      if startsWith (js "APPROVE:") content then
        let accountId := trim (substring_from (List.length (js "APPROVE:")) content) in
        if bool_decide (accountId ∈ approvers)
        then {[ accountId ]} ∪ validApprovals
        else validApprovals
      else validApprovals
  | None => validApprovals
  end.

(** The set [validApprovals] after the loop. *)
Definition validApprovals (approvers : list jsstring) (messages : list value)
  : gset jsstring :=
  foldl (tallyStep approvers) ∅ messages.

(** ** Report *)

(** The loop that looks for the proposal message: the values of
    [proposalDescription], [foundApproversList] and [foundThreshold] when it
    ends.  It stops at the first message whose text starts with
    [Proposal:]. *)
Fixpoint proposalDetails (approvers : list jsstring) (threshold : Z)
    (messages : list value) : jsstring * list jsstring * jsstring :=
  match messages with
  | [] => (descriptionPlaceholder, [], js "N/A")
  | msgObj :: rest =>
      match messageContent msgObj with
      | Some content =>
          if startsWith (js "Proposal:") content
          then (decodeDescription content, approvers, numberToString threshold)
          else proposalDetails approvers threshold rest
      | None => proposalDetails approvers threshold rest
      end
  end.

(** One line of the approver list. *)
Definition approverLine (validApprovals : gset jsstring) (approver : jsstring)
  : jsstring :=
  js "- " ++ approver ++ js " "
  ++ (if bool_decide (approver ∈ validApprovals)
      then js "(approved)" else js "(not approved)")
  ++ nl.

Definition hashscanTopicUrl (topicId : jsstring) : jsstring :=
  js "https://hashscan.io/testnet/topic/" ++ topicId.

(** The two non-ASCII marks of the report, as the characters the source
    file holds (its emoji are stored doubly encoded): U+00E2 U+0153 U+2026
    before [Proposal Approved!] and U+00F0 U+0178 U+201D U+2014 before
    [View the immutable approval record]. *)
Definition proposalApprovedMark : jsstring := [226%N; 339%N; 8230%N].
Definition recordLinkMark : jsstring := [240%N; 376%N; 8221%N; 8212%N].

Definition reportHeader (approvalCount : nat) (foundThreshold topicId
    proposalDescription : jsstring) : jsstring :=
  proposalApprovedMark ++ js " Proposal Approved!" ++ nl ++ nl
  ++ js "The required number of approvals ("
  ++ numberToString (Z.of_nat approvalCount) ++ js "/" ++ foundThreshold
  ++ js ") has been reached for the proposal in topic `" ++ topicId
  ++ js "`." ++ nl ++ nl
  ++ js "Proposal Details:" ++ nl ++ proposalDescription ++ nl ++ nl
  ++ js "Approvers:" ++ nl.

Definition reportFooter (topicId : jsstring) : jsstring :=
  nl ++ js "Next Steps:" ++ nl
  ++ js "The action described in the proposal can now be executed manually by the relevant party, as consensus has been recorded on Hedera."
  ++ nl
  ++ recordLinkMark
  ++ js " View the immutable approval record on HashScan: "
  ++ hashscanTopicUrl topicId ++ nl
  ++ js "The topic messages provide cryptographic proof of consensus.".

(** The report of an approved proposal. *)
Definition approvedReport (topicId : jsstring) (approvers : list jsstring)
    (threshold : Z) (messages : list value) (validApprovals : gset jsstring)
  : jsstring :=
  let '(proposalDescription, foundApproversList, foundThreshold) :=
    proposalDetails approvers threshold messages in
  reportHeader (size validApprovals) foundThreshold topicId proposalDescription
  ++ List.concat (map (approverLine validApprovals) (sort foundApproversList))
  ++ reportFooter topicId.

(** The report of a proposal still short of its threshold. *)
Definition pendingReport (approvalCount : nat) (threshold : Z) : jsstring :=
  js "Current tally: " ++ numberToString (Z.of_nat approvalCount) ++ js "/"
  ++ numberToString threshold ++ js " approvals."
  ++ js " Need " ++ numberToString (threshold - Z.of_nat approvalCount)
  ++ js " more approval(s).".

(** ** The public operations *)

Section Agent.

(** [JSON.parse]: the value a text parses to, [None] when it throws a
    [SyntaxError]. *)
Variable JSON_parse : jsstring -> option value.

(** The module-level [tools] object. *)
Variable tools : Tools.

(** *** Response normalizer: topic identifier *)

(** [potentialId] of priorities 3 and 4: the rendering of an identifier
    object, kept when it is non-empty and contains a dot. *)
Definition convertedId (rendering : outcome jsstring) : option jsstring :=
  match rendering with
  | Returns potentialId =>
      if negb (bool_decide (potentialId = [])) && includesChar 46 potentialId
      then Some potentialId else None
  | Throws _ => None
  end.

(** The [try] / [catch] around the conversion: a [toString] that throws is
    caught, its [e.message] is read for the warning and [topicId] stays
    [null]. *)
Definition convertOrWarn (rendering : outcome jsstring)
  : outcome (option jsstring) :=
  match rendering with
  | Returns _ => Returns (convertedId rendering)
  | Throws e => _ ← messageOf e; Returns None
  end.

(** The if / else-if chain over [parsedResponse]: the value of [topicId]
    after it ([None] is [null]). *)
Definition topicIdOf (parsedResponse : value) : outcome (option jsstring) :=
  if truthy parsedResponse && bool_decide (typeof parsedResponse = TObject)
  then
    let receipt := get parsedResponse (js "receipt") in
    let topId := get parsedResponse (js "topicId") in
    let receiptId := get receipt (js "topicId") in
    (* Priority 1: a string under receipt *)
    if truthy receipt && bool_decide (typeof receipt = TObject)
       && bool_decide (typeof receiptId = TString)
    then Returns (stringOf receiptId)
    (* Priority 2: a string on the top level *)
    else if bool_decide (typeof topId = TString)
    then Returns (stringOf topId)
    (* Priority 3: an object with toString on the top level *)
    else if truthy topId && bool_decide (typeof topId = TObject)
            && hasToString topId
    then convertOrWarn (callToString topId)
    (* Priority 4: an object with toString under receipt *)
    else if truthy receipt && bool_decide (typeof receipt = TObject)
            && truthy receiptId && bool_decide (typeof receiptId = TObject)
            && hasToString receiptId
    then convertOrWarn (callToString receiptId)
    else Returns None
  else Returns None.

(** Step 2 of [createProposal]: from the raw tool response to the topic
    identifier, or the error thrown on the way. *)
Definition extractTopicId (topicResponse : value) : outcome jsstring :=
  (* JSON.stringify(undefined) is undefined, whose substring cannot be read *)
  _ ← (if isUndefined topicResponse
       then throwError (js "Cannot read properties of undefined (reading 'substring')")
       else Returns tt);
  parsedResponse ←
    match topicResponse with
    | VStr text =>
        match JSON_parse text with
        | Some v => Returns v
        | None =>
            throwError (js "Tool response was a string but could not be parsed as JSON.")
        end
    | _ =>
        if bool_decide (typeof topicResponse = TObject)
           && negb (isNull topicResponse)
        then Returns topicResponse
        else throwError (js "Tool response was neither a string nor a valid object.")
    end;
  topicId ← topicIdOf parsedResponse;
  match topicId with
  | Some (c :: topicId') => Returns (c :: topicId')
  | _ =>
      throwError (js "Failed to extract Topic ID string from createTopic response. Response type was "
                  ++ typeName (typeof topicResponse) ++ js ". Check logs above.")
  end.

(** An [async] function either fulfils with its result or rejects.  Each
    operation is one [try] / [catch] whose handler builds the error result
    from [error.message]; when that cannot be read the handler itself
    throws and the operation rejects. *)
Definition createProposal (proposalDescription : jsstring)
    (approvers : list jsstring) (threshold : Z) : outcome ProposalResult :=
  match
    topicResponse ← createTopic tools
      (js "Approvr Proposal: " ++ substring_to 50 proposalDescription
       ++ js "...");
    topicId ← extractTopicId topicResponse;
    _ ← submitMessage tools (VStr topicId)
          (initialMessage proposalDescription approvers threshold);
    Returns topicId
  with
  | Returns topicId =>
      Returns
        {| cp_topicId := Some topicId;
           cp_status := js "success";
           cp_message := js "Proposal created. Share this Topic ID: "
                         ++ topicId |}
  | Throws error =>
      message ← messageOf error;
      Returns
        {| cp_topicId := None;
           cp_status := js "error";
           cp_message := js "Failed to create proposal: " ++ message |}
  end.

(** [topicId] is whatever the caller hands over; it is rendered in the
    template of the first log line, inside the [try]. *)
Definition submitApproval (topicId : value) (approverAccountId : jsstring)
  : outcome ApprovalResult :=
  match
    _ ← ToString topicId;
    submitMessage tools topicId (approvalMessage approverAccountId)
  with
  | Returns _ =>
      Returns
        {| sa_status := js "success";
           sa_message := js "Approval recorded for " ++ approverAccountId
                         ++ js "." |}
  | Throws error =>
      message ← messageOf error;
      Returns
        {| sa_status := js "error";
           sa_message := js "Failed to submit approval: " ++ message |}
  end.

(** *** Response normalizer: message list *)

(** Step 2 of [tallyApprovals]: the array [messages].  It starts as the
    empty array and is only ever assigned an array, so the later
    [Array.isArray] check cannot fail. *)
Definition extractMessages (messagesResponse : value) : outcome (list value) :=
  parsedMessagesResponse ←
    match messagesResponse with
    | VStr text =>
        match JSON_parse text with
        | Some v => Returns v
        | None =>
            throwError (js "get_topic_messages_query_tool returned an unparsable string.")
        end
    | _ => Returns messagesResponse
    end;
  Returns (messagesOf parsedMessagesResponse).

(** Steps 3 and 4 of [tallyApprovals], on the normalized [messages]. *)
Definition tallyOf (topicId : jsstring) (approvers : list jsstring)
    (threshold : Z) (messages : list value) : TallyResult :=
  let validApprovals := validApprovals approvers messages in
  let approvalCount := size validApprovals in
  let isApproved := bool_decide (threshold ≤ Z.of_nat approvalCount) in
  {| ta_status := js "success";
     ta_approvals := approvalCount;
     ta_isApproved := isApproved;
     ta_message :=
       if isApproved
       then approvedReport topicId approvers threshold messages validApprovals
       else pendingReport approvalCount threshold |}.

Definition tallyApprovals (topicId : jsstring) (approvers : list jsstring)
    (threshold : Z) : outcome TallyResult :=
  match
    messagesResponse ← getMessages tools topicId;
    extractMessages messagesResponse
  with
  | Returns messages => Returns (tallyOf topicId approvers threshold messages)
  | Throws error =>
      message ← messageOf error;
      Returns
        {| ta_status := js "error";
           ta_approvals := 0;
           ta_isApproved := false;
           ta_message := js "Failed to tally approvals: " ++ message |}
  end.

End Agent.

(** ** The bot commands and the approval endpoint (api/index.js)

    A command handler is modelled by the text it passes to [ctx.reply]; the
    Telegram calls themselves ([reply], [sendChatAction]) are outside the
    model. *)

(** [s.split(sep)] for a separator of at least one character; [skip] counts
    the characters of a matched separator still to pass over. *)
Fixpoint splitOnFrom (sep : jsstring) (skip : nat) (s : jsstring)
  : list jsstring :=
  match s with
  | [] => [[]]
  | c :: s' =>
      match skip with
      | S k => splitOnFrom sep k s'
      | O =>
          if startsWith sep s
          then [] :: splitOnFrom sep (List.length sep - 1) s'
          else match splitOnFrom sep 0 s' with
               | seg :: segs => (c :: seg) :: segs
               | [] => [[c]]
               end
      end
  end.

Definition splitOn (sep s : jsstring) : list jsstring := splitOnFrom sep 0 s.

(** The value of a run of decimal digits at the head of [s], continuing
    [acc]. *)
Fixpoint digitsValue (acc : Z) (s : jsstring) : Z :=
  match s with
  | c :: s' =>
      if isDigit c then digitsValue (10 * acc + (Z.of_N c - 48)) s' else acc
  | [] => acc
  end.

(** [parseInt(s, 10)]: leading white space, an optional sign, then the
    longest run of digits; [None] is [NaN].  The integer is kept exactly;
    the handlers only compare it with 0 and with an array length, which the
    rounding of a long digit string to a double does not change. *)
Definition parseInt10 (s : jsstring) : option Z :=
  let s1 := trimStart s in
  let '(negative, s2) :=
    match s1 with
    | 45%N :: rest => (true, rest)
    | 43%N :: rest => (false, rest)
    | _ => (false, s1)
    end in
  match s2 with
  | c :: _ =>
      if isDigit c
      then Some (if negative then - digitsValue 0 s2 else digitsValue 0 s2)
      else None
  | [] => None
  end.

(** [text.split(',').map(id => id.trim()).filter(id => id)] *)
Definition parseApprovers (text : jsstring) : list jsstring :=
  filter (fun id => id <> []) (map trim (split 44 text)).

(** [message || fallback] on strings. *)
Definition orDefault (message fallback : jsstring) : jsstring :=
  if bool_decide (message = []) then fallback else message.

(** The outcome of reading the arguments of [/create] or [/tally]: a
    refusal sent back to the chat, or the three arguments handed to the
    core. *)
Inductive commandArgs : Type :=
| Refused (reply : jsstring)
| Accepted (first : jsstring) (approvers : list jsstring) (threshold : Z).

(** The argument parsing [/create] and [/tally] share, up to the name of
    the command and the texts of the three refusals. *)
Definition parseCommandArgs (command usage invalidFormat invalidThreshold
    text : jsstring) : commandArgs :=
  let args := trim (substring_from (List.length command) text) in
  if bool_decide (args = []) then Refused usage
  else
    match splitOn (js " | ") args with
    | [part0; part1; part2] =>
        let first := trim part0 in
        let approvers := parseApprovers part1 in
        match parseInt10 (trim part2) with
        | None => Refused invalidThreshold
        | Some threshold =>
            if bool_decide (threshold ≤ 0)
               || bool_decide (Z.of_nat (List.length approvers) < threshold)
            then Refused invalidThreshold
            else Accepted first approvers threshold
        end
    | _ => Refused invalidFormat
    end.

Definition createArgs (text : jsstring) : commandArgs :=
  parseCommandArgs (js "/create")
    (js "Please provide proposal details. Format: /create <description> | <approver1,approver2,...> | <threshold>")
    (js "Invalid format. Please use: /create <description> | <approver1,approver2,...> | <threshold>")
    (js "Invalid threshold. It must be a number between 1 and the number of approvers.")
    text.

Definition tallyArgs (text : jsstring) : commandArgs :=
  parseCommandArgs (js "/tally")
    (js "Please provide tally details. Format: /tally <topic_id> | <approver1,approver2,...> | <threshold>")
    (js "Invalid format. Please use: /tally <topic_id> | <approver1,approver2,...> | <threshold>")
    (js "Invalid threshold for tally. It must be a number between 1 and the number of approvers provided.")
    text.

(** The links between Telegram users and Hedera accounts: the two
    module-level maps [userData] (keyed by the numeric user id) and
    [serverUserData] (keyed by its decimal rendering). *)
Record LinkData : Type := {
  hederaAccountId : jsstring;
  linkedAt : jsstring }.

Record Links : Type := {
  userData : gmap Z LinkData;
  serverUserData : gmap jsstring jsstring }.  (* verifiedHederaAccountId *)

(** [bot.command('linkaccount', ...)], with [now] the value of
    [new Date().toISOString()]: the maps afterwards and the reply. *)
Definition linkaccountCommand (now : jsstring) (userId : Z) (text : jsstring)
    (links : Links) : Links * jsstring :=
  let account := trim (substring_from (List.length (js "/linkaccount")) text) in
  if bool_decide (account = []) || negb (startsWith (js "0.0.") account)
  then (links,
        [10060%N]
        ++ js " Please provide a valid Hedera Account ID starting with '0.0.'.")
  else
    ({| userData :=
          <[userId := {| hederaAccountId := account; linkedAt := now |}]>
            (userData links);
        serverUserData :=
          <[numberToString userId := account]> (serverUserData links) |},
     [9989%N] ++ js " Simulated successful verification for `" ++ account
     ++ js "`\. Link established for demo purposes\.").

(** [bot.command('approve', ...)], with [VERCEL_URL] the rendering of the
    environment variable in the template: the reply and, when the approval
    is offered, the URL of the mini-app button. *)
Definition approveCommand (VERCEL_URL : jsstring) (userId : Z)
    (text : jsstring) (links : Links) : jsstring * option jsstring :=
  let topicId := trim (substring_from (List.length (js "/approve")) text) in
  if negb (startsWith (js "0.0.") topicId)
  then ([10060%N] ++ js " Invalid Topic ID.", None)
  else
    match userData links !! userId with
    | None =>
        ([10060%N] ++ js " Please link your account first using `/linkaccount`.",
         None)
    | Some userLinkData =>
        (js "Please confirm your approval for topic `" ++ topicId
         ++ js "` using the Mini App.",
         Some (js "https://" ++ VERCEL_URL ++ js "/approve?topic_id=" ++ topicId
               ++ js "&user_account=" ++ hederaAccountId userLinkData))
    end.

(** The body of a request to [/api/approve]: two JSON values, [undefined]
    standing for an absent field. *)
Record ApproveBody : Type := {
  telegramUserId : value;
  body_topicId : value }.

(** What the endpoint does: an error status with its [error] text, the JSON
    [{success, message}], or an exception thrown outside the [try], which
    leaves the request without an answer. *)
Inductive ApiResponse : Type :=
| ErrorStatus (code : Z) (error : jsstring)
| Json (success : bool) (message : jsstring)
| Unhandled (e : thrown).

Section Bot.

Variable JSON_parse : jsstring -> option value.
Variable tools : Tools.

(** [bot.command('create', ...)]: the text the handler replies with, the
    calls on [ctx] being taken to succeed.  The [catch] of the handler
    answers an operation that rejects with an apology. *)
Definition createCommand (text : jsstring) : jsstring :=
  match createArgs text with
  | Refused reply => reply
  | Accepted description approvers threshold =>
      match createProposal JSON_parse tools description approvers threshold with
      | Returns result =>
          orDefault (cp_message result)
                    (js "Proposal creation process completed.")
      | Throws _ =>
          js "Sorry, failed to create the proposal. Please check the format and try again."
      end
  end.

(** [bot.command('tally', ...)] *)
Definition tallyCommand (text : jsstring) : jsstring :=
  match tallyArgs text with
  | Refused reply => reply
  | Accepted topicId approvers threshold =>
      match tallyApprovals JSON_parse tools topicId approvers threshold with
      | Returns result =>
          orDefault (ta_message result) (js "Tally process completed.")
      | Throws _ =>
          js "Sorry, failed to tally approvals. Please check the Topic ID and details, and try again."
      end
  end.

(** [app.post('/api/approve', ...)].  The log line before the [try] renders
    [topicId] and [telegramUserId] in a template. *)
Definition apiApprove (body : ApproveBody) (links : Links) : ApiResponse :=
  let topicId := body_topicId body in
  if negb (truthy (telegramUserId body)) || negb (truthy topicId)
  then ErrorStatus 400 (js "Missing data.")
  else
    match invokeToString (js "telegramUserId") (telegramUserId body) with
    | Throws e => Unhandled e
    | Returns key =>
        match serverUserData links !! key with
        | Some verifiedHederaAccountId =>
            if bool_decide (verifiedHederaAccountId = [])
            then ErrorStatus 401
                   (js "User not linked or link not found in this instance.")
            else
              match _ ← ToString topicId; ToString (telegramUserId body) with
              | Throws e => Unhandled e
              | Returns _ =>
                  match submitApproval tools topicId
                          verifiedHederaAccountId with
                  | Returns result =>
                      Json (bool_decide (sa_status result = js "success"))
                           (sa_message result)
                  | Throws _ =>
                      ErrorStatus 500 (js "An internal error occurred.")
                  end
              end
        | None =>
            ErrorStatus 401
              (js "User not linked or link not found in this instance.")
        end
    end.

End Bot.

(** ** Notions used in the statements *)

(** [x] is approved by the log entry [msgObj]: its text is [APPROVE:]
    followed by [x] up to surrounding white space. *)
Definition approvesFor (x : jsstring) (msgObj : value) : Prop :=
  exists rest, messageContent msgObj = Some (js "APPROVE:" ++ rest)
               /\ trim rest = x.

(** The normalizer extracts [id] from a response, or fails on it. *)
Definition identifies (JSON_parse : jsstring -> option value)
    (response : value) (id : jsstring) : Prop :=
  extractTopicId JSON_parse response = Returns id.

Definition rejects (JSON_parse : jsstring -> option value) (response : value)
  : Prop :=
  exists cause, extractTopicId JSON_parse response = throwError cause.

(** A truthy object exposing a callable [toString]: the guard of
    priorities 3 and 4. *)
Definition identifierObject (v : value) : bool :=
  truthy v && bool_decide (typeof v = TObject) && hasToString v.

(** Where an identifier found on an object comes from. *)
Definition identifierSource (parsed : value) (id : jsstring) : Prop :=
  let topId := get parsed (js "topicId") in
  let receiptId := get (get parsed (js "receipt")) (js "topicId") in
  receiptId = VStr id
  \/ topId = VStr id
  \/ (identifierObject topId = true /\ callToString topId = Returns id
      /\ includesChar 46 id = true)
  \/ (identifierObject receiptId = true /\ callToString receiptId = Returns id
      /\ includesChar 46 id = true).

(** [msgObj] is an object whose [message] field is the string [text]. *)
Definition hasText (msgObj : value) (text : jsstring) : Prop :=
  exists fields toStr,
    msgObj = VObj fields toStr
    /\ lookupField (js "message") fields = Some (VStr text).

(** The log entry [msgObj] names [x] as approving: it is an object whose
    [message] is the string [APPROVE:] followed by [x] up to surrounding
    white space. *)
Definition approvalEntry (x : jsstring) (msgObj : value) : Prop :=
  exists rest, hasText msgObj (js "APPROVE:" ++ rest) /\ trim rest = x.

(** A thrown value is [null] or [undefined]. *)
Definition nullish (e : thrown) : Prop := e = ThrownNull \/ e = ThrownUndefined.

(** The [TypeError] of reading [message] on [null] or [undefined]. *)
Definition messageReadError (e : thrown) : Prop :=
  e = ThrownError (js "Cannot read properties of null (reading 'message')")
  \/ e = ThrownError (js "Cannot read properties of undefined (reading 'message')").

(** A call that, if it throws, throws a value with a message. *)
Definition throwsErrorsOnly {A : Type} (o : outcome A) : Prop :=
  forall e, o = Throws e -> ~ nullish e.

(** Every call of the collaborator returns or throws a value with a
    message. *)
Definition reportsErrors (tools : Tools) : Prop :=
  (forall memo, throwsErrorsOnly (createTopic tools memo))
  /\ (forall topicId message, throwsErrorsOnly (submitMessage tools topicId message))
  /\ (forall topicId, throwsErrorsOnly (getMessages tools topicId)).

(** The texts of the entries of a message list, in log order. *)
Definition contents (messages : list value) : list jsstring :=
  omap messageContent messages.


(** No line terminator occurs in [s]. *)
Definition singleLine (s : jsstring) : Prop :=
  Forall (fun c => isLineTerminator c = false) s.

(** ** Collaborators and logs used in the examples *)

(** A log entry carrying the text [text]. *)
Definition entry (text : jsstring) : value :=
  plainObject [(js "message", VStr text)].

(** A collaborator that creates topic [0.0.5005], accepts every message and
    answers every read with [response]. *)
Definition fixedLog (response : outcome value) : Tools :=
  {| createTopic := fun _ =>
       Returns (plainObject [(js "topicId", VStr (js "0.0.5005"))]);
     submitMessage := fun _ _ => Returns VUndefined;
     getMessages := fun _ => response |}.

(** A collaborator all of whose calls fail. *)
Definition brokenLog : Tools :=
  {| createTopic := fun _ => throwError (js "network down");
     submitMessage := fun _ _ => throwError (js "network down");
     getMessages := fun _ => throwError (js "network down") |}.

(** A collaborator all of whose calls throw [null]. *)
Definition nullThrower : Tools :=
  {| createTopic := fun _ => Throws ThrownNull;
     submitMessage := fun _ _ => Throws ThrownNull;
     getMessages := fun _ => Throws ThrownNull |}.

(** A collaborator that creates topic [0.0.5005] and then refuses every
    message. *)
Definition refusingLog : Tools :=
  {| createTopic := fun _ =>
       Returns (plainObject [(js "topicId", VStr (js "0.0.5005"))]);
     submitMessage := fun _ _ => throwError (js "topic deleted");
     getMessages := fun _ => Returns (VArr []) |}.

(** A collaborator whose [createTopic] answers [response]. *)
Definition topicCreator (response : value) : Tools :=
  {| createTopic := fun _ => Returns response;
     submitMessage := fun _ _ => Returns VUndefined;
     getMessages := fun _ => Returns (VArr []) |}.

(** The log of the scenario of the specification. *)
Definition gearLog : list value :=
  [entry (js "Proposal: Buy gear" ++ nl ++ js "Approvers: a,b,c" ++ nl
          ++ js "Threshold: 2");
   entry (js "APPROVE:a"); entry (js "APPROVE:b"); entry (js "APPROVE:a")].

(** The JSON text of an object whose [topicId] field is the string
    [0.0.5005]. *)
Definition wrappedTopicText : jsstring :=
  js "{" ++ dq ++ js "topicId" ++ dq ++ js ":" ++ dq ++ js "0.0.5005" ++ dq
  ++ js "}".

(** * Properties *)

(** ** Examples *)

Example sort_ex :
  sort [js "b"; js "a10"; js "a"; js "B"] = [js "B"; js "a"; js "a10"; js "b"].
Proof. vm_compute. reflexivity. Qed.

Example trim_ex : trim (js "  0.0.7 " ++ nl) = js "0.0.7".
Proof. vm_compute. reflexivity. Qed.

Example split_ex :
  split 10 (js "a" ++ nl ++ js "bc" ++ nl) = [js "a"; js "bc"; []].
Proof. vm_compute. reflexivity. Qed.

Example num_ex : numberToString (-12) = js "-12".
Proof. vm_compute. reflexivity. Qed.

Example parseJSON_wrapped :
  parseJSON wrappedMessagesText
  = Some (plainObject
            [(js "messages",
              VArr [plainObject [(js "message", VStr (js "APPROVE:a"))]])]).
Proof. vm_compute. reflexivity. Qed.

Example parseJSON_ex :
  parseJSON (js " [1, -0, true , null, {} ]")
  = Some (VArr [VNum (js "1"); VNum (js "0"); VBool true; VNull; plainObject []]).
Proof. vm_compute. reflexivity. Qed.

Example parseJSON_bad : parseJSON (js "{topicId: 1}") = None.
Proof. vm_compute. reflexivity. Qed.


(** ** Strings *)

Lemma startsWith_app pre s : startsWith pre (pre ++ s) = true.
Proof.
  induction pre as [|p pre IH]; simpl; [done|].
  by rewrite N.eqb_refl.
Qed.

Lemma startsWith_inv pre s :
  startsWith pre s = true -> s = pre ++ drop (List.length pre) s.
Proof.
  revert s. induction pre as [|p pre IH]; intros [|c s]; simpl; try done.
  destruct (N.eqb_spec p c) as [->|]; [|done].
  intros H. f_equal. by apply IH.
Qed.

Lemma startsWith_iff pre s :
  startsWith pre s = true <-> exists rest, s = pre ++ rest.
Proof.
  split.
  - intros H. eexists. by apply startsWith_inv.
  - intros [rest ->]. apply startsWith_app.
Qed.



(** ** The set of valid approvals *)

Lemma tallyStep_elem approvers acc msgObj x :
  x ∈ tallyStep approvers acc msgObj
  <-> x ∈ acc \/ (x ∈ approvers /\ approvesFor x msgObj).
Proof.
  unfold tallyStep, approvesFor.
  destruct (messageContent msgObj) as [content|] eqn:Hc.
  - destruct (startsWith (js "APPROVE:") content) eqn:Hs.
    + apply startsWith_inv in Hs. unfold substring_from.
      remember (drop (List.length (js "APPROVE:")) content) as rest eqn:Hrest.
      clear Hrest. subst content.
      assert (Hinj : forall rest', Some (js "APPROVE:" ++ rest)
                        = Some (js "APPROVE:" ++ rest') -> rest = rest').
      { intros rest' Heq. injection Heq as Heq. done. }
      case_bool_decide as Hin.
      * rewrite elem_of_union, elem_of_singleton. split.
        -- intros [->|?]; [right|by left].
           split; [done|]. by exists rest.
        -- intros [?|[_ [rest' [Heq <-]]]]; [by right|left].
           by rewrite (Hinj _ Heq).
      * split; [by left|]. intros [?|[Hx [rest' [Heq <-]]]]; [done|].
        by rewrite <- (Hinj _ Heq) in Hx.
    + split; [by left|]. intros [?|[_ [rest' [Heq _]]]]; [done|].
      assert (content = js "APPROVE:" ++ rest') as -> by congruence.
      by rewrite startsWith_app in Hs.
  - split; [by left|]. by intros [?|[_ [rest' [Heq _]]]].
Qed.

Lemma foldl_tallyStep_elem approvers messages acc x :
  x ∈ foldl (tallyStep approvers) acc messages
  <-> x ∈ acc
      \/ (x ∈ approvers /\ exists msgObj, msgObj ∈ messages /\ approvesFor x msgObj).
Proof.
  revert acc. induction messages as [|m messages IH]; intros acc; simpl.
  - split; [by left|]. intros [?|[_ [m [Hm _]]]]; [done|]. by apply elem_of_nil in Hm.
  - rewrite IH, tallyStep_elem. split.
    + intros [[?|[? ?]]|[? [m' [? ?]]]]; [by left| |].
      * right. split; [done|]. exists m. split; [left|done].
      * right. split; [done|]. exists m'. split; [by right|done].
    + intros [?|[? [m' [Hm' ?]]]]; [by left; left|].
      apply elem_of_cons in Hm' as [->|?].
      * left. by right.
      * right. split; [done|]. by exists m'.
Qed.

Lemma validApprovals_elem approvers messages x :
  x ∈ validApprovals approvers messages
  <-> x ∈ approvers /\ exists msgObj, msgObj ∈ messages /\ approvesFor x msgObj.
Proof.
  unfold validApprovals. rewrite foldl_tallyStep_elem.
  split; [intros [H|H]; [by apply not_elem_of_empty in H|done] | by right].
Qed.

Lemma validApprovals_app_subseteq approvers messages extra :
  validApprovals approvers messages
  ⊆ validApprovals approvers (messages ++ extra).
Proof.
  intros x. rewrite !validApprovals_elem.
  intros [? [m [? ?]]]. split; [done|]. exists m.
  split; [|done]. apply elem_of_app. by left.
Qed.

(** ** Tally results *)

Lemma messageOf_not_nullish e :
  ~ nullish e -> exists message, e = ThrownError message.
Proof. destruct e; [intros []; by left | intros []; by right | by eauto]. Qed.

Lemma messageOf_throws e e' :
  messageOf e = Throws e' -> nullish e /\ messageReadError e'.
Proof.
  unfold messageReadError.
  destruct e; simpl; intros [= <-]; (split; [|by auto]); [by left|by right].
Qed.

Lemma messageReadError_message e :
  messageReadError e -> exists message, e = ThrownError message.
Proof. intros [->| ->]; by eauto. Qed.

Lemma extractMessages_throws JSON_parse response e :
  extractMessages JSON_parse response = Throws e ->
  e = ThrownError (js "get_topic_messages_query_tool returned an unparsable string.")
  /\ exists text, response = VStr text /\ JSON_parse text = None.
Proof.
  unfold extractMessages. destruct response; try discriminate.
  destruct (JSON_parse s) eqn:Hp; [discriminate|].
  intros [= <-]. split; [done|]. by exists s.
Qed.

Section TallyFacts.

Variable JSON_parse : jsstring -> option value.
Variable tools : Tools.
Variables (topicId : jsstring) (approvers : list jsstring) (threshold : Z).

Lemma tallyApprovals_read response messages :
  getMessages tools topicId = Returns response ->
  extractMessages JSON_parse response = Returns messages ->
  tallyApprovals JSON_parse tools topicId approvers threshold
  = Returns (tallyOf topicId approvers threshold messages).
Proof.
  intros Hread Hex. unfold tallyApprovals. rewrite Hread. simpl.
  by rewrite Hex.
Qed.

Lemma tallyApprovals_array messages :
  getMessages tools topicId = Returns (VArr messages) ->
  tallyApprovals JSON_parse tools topicId approvers threshold
  = Returns (tallyOf topicId approvers threshold messages).
Proof. intros Hread. by apply tallyApprovals_read with (VArr messages). Qed.

(** The error result of [tallyApprovals] for a cause. *)
Lemma tallyApprovals_returns r :
  tallyApprovals JSON_parse tools topicId approvers threshold = Returns r ->
  (exists response messages,
      getMessages tools topicId = Returns response
      /\ extractMessages JSON_parse response = Returns messages
      /\ r = tallyOf topicId approvers threshold messages)
  \/ (exists cause,
      r = {| ta_status := js "error"; ta_approvals := 0;
             ta_isApproved := false;
             ta_message := js "Failed to tally approvals: " ++ cause |}
      /\ (getMessages tools topicId = Throws (ThrownError cause)
          \/ exists response,
               getMessages tools topicId = Returns response
               /\ extractMessages JSON_parse response
                  = Throws (ThrownError cause))).
Proof.
  unfold tallyApprovals.
  destruct (getMessages tools topicId) as [response|e]; cbn [mbind outcome_bind].
  - destruct (extractMessages JSON_parse response) as [messages|e] eqn:Hex.
    + intros [= <-]. left. by exists response, messages.
    + destruct (extractMessages_throws _ _ _ Hex) as [-> _].
      cbn [messageOf mbind outcome_bind]. intros [= <-]. right.
      eexists. split; [reflexivity|]. right. by exists response.
  - destruct e as [| |cause]; cbn [messageOf throwError mbind outcome_bind];
      try discriminate.
    intros [= <-]. right. exists cause. split; [done|]. by left.
Qed.

Lemma tallyApprovals_rejects e :
  tallyApprovals JSON_parse tools topicId approvers threshold = Throws e ->
  exists e0, getMessages tools topicId = Throws e0 /\ messageOf e0 = Throws e.
Proof.
  unfold tallyApprovals.
  destruct (getMessages tools topicId) as [response|e0]; cbn [mbind outcome_bind].
  - destruct (extractMessages JSON_parse response) as [messages|e1] eqn:Hex;
      [discriminate|].
    destruct (extractMessages_throws _ _ _ Hex) as [-> _]. discriminate.
  - destruct (messageOf e0) as [m|e1] eqn:Hm; cbn [mbind outcome_bind];
      [discriminate|].
    intros [= <-]. by exists e0.
Qed.

End TallyFacts.

Lemma success_not_error : js "success" <> js "error".
Proof. discriminate. Qed.

Lemma messageContent_hasText msgObj text :
  messageContent msgObj = Some text <-> hasText msgObj text.
Proof.
  unfold messageContent, hasText. split.
  - destruct msgObj as [| |b|repr|s|items|fields toStr];
      cbn [truthy typeof andb get]; try done.
    + rewrite (bool_decide_eq_false_2 (_ = TObject)) by done.
      by rewrite andb_false_r.
    + rewrite (bool_decide_eq_false_2 (_ = TObject)) by done.
      by rewrite andb_false_r.
    + rewrite (bool_decide_eq_false_2 (_ = TObject)) by done.
      by rewrite andb_false_r.
    + rewrite bool_decide_eq_true_2 by done.
      destruct (lookupField (js "message") fields) as [[| | | |s| |]|] eqn:Hl;
        cbn [default]; try done.
      intros [= <-]. by exists fields, toStr.
  - intros (fields & toStr & -> & Hl).
    cbn [truthy typeof andb get]. rewrite bool_decide_eq_true_2 by done.
    by rewrite Hl.
Qed.

Lemma approvesFor_approvalEntry x msgObj :
  approvesFor x msgObj <-> approvalEntry x msgObj.
Proof.
  unfold approvesFor, approvalEntry.
  split; intros (rest & H & Ht); exists rest; (split; [|done]);
    by apply messageContent_hasText.
Qed.

(** C1. The count returned by [tallyApprovals] is the number of distinct
    identifiers [x] of the approvers list that some log entry names: an
    object whose [message] is the string [APPROVE:] followed by [x] up to
    surrounding white space.  Every list [ids] that enumerates exactly these
    identifiers without repetition has the count as its length, and such a
    list exists; so an identifier approving several times counts once and an
    identifier outside the approvers list counts for nothing.  The tally
    succeeds. *)
Theorem tally_counts_distinct_valid_approvers
    (JSON_parse : jsstring -> option value) (tools : Tools)
    (topicId : jsstring) (approvers : list jsstring) (threshold : Z)
    (response : value) (messages : list value) :
  getMessages tools topicId = Returns response ->
  extractMessages JSON_parse response = Returns messages ->
  exists r,
    tallyApprovals JSON_parse tools topicId approvers threshold = Returns r
    /\ ta_status r = js "success"
    /\ (exists ids : list jsstring,
          NoDup ids
          /\ (forall x, x ∈ ids
                <-> x ∈ approvers
                    /\ exists msgObj, msgObj ∈ messages /\ approvalEntry x msgObj)
          /\ ta_approvals r = List.length ids)
    /\ (forall ids : list jsstring,
          NoDup ids ->
          (forall x, x ∈ ids
             <-> x ∈ approvers
                 /\ exists msgObj, msgObj ∈ messages /\ approvalEntry x msgObj) ->
          ta_approvals r = List.length ids).
Proof.
  intros Hread Hex. eexists. split; [by apply tallyApprovals_read with response|].
  split; [done|].
  assert (Helem : forall x,
            x ∈ elements (validApprovals approvers messages)
            <-> x ∈ approvers
                /\ exists msgObj, msgObj ∈ messages /\ approvalEntry x msgObj).
  { intros x. rewrite elem_of_elements, validApprovals_elem.
    split; intros [? (m & ? & Hm)]; (split; [done|]); exists m;
      (split; [done|]); by apply approvesFor_approvalEntry. }
  split.
  - exists (elements (validApprovals approvers messages)).
    split; [apply NoDup_elements|]. by split.
  - intros ids Hnodup Hids. cbn [tallyOf ta_approvals].
    apply Permutation_length, NoDup_Permutation; [apply NoDup_elements|done|].
    intros x. by rewrite Helem, Hids.
Qed.

(** Three entries: [a] twice, once padded with white space, and [z], who is
    not an approver. *)
Lemma tally_counts_distinct_valid_approvers_witness :
  exists r,
    tallyApprovals parseJSON
      (fixedLog (Returns (VArr [entry (js "APPROVE: a ");
                                entry (js "APPROVE:a");
                                entry (js "APPROVE:z")])))
      (js "0.0.5005") [js "a"; js "b"] 2 = Returns r
    /\ ta_status r = js "success"
    /\ ta_approvals r = 1%nat.
Proof.
  destruct (tally_counts_distinct_valid_approvers parseJSON
              (fixedLog (Returns (VArr [entry (js "APPROVE: a ");
                                        entry (js "APPROVE:a");
                                        entry (js "APPROVE:z")])))
              (js "0.0.5005") [js "a"; js "b"] 2
              (VArr [entry (js "APPROVE: a "); entry (js "APPROVE:a");
                     entry (js "APPROVE:z")])
              [entry (js "APPROVE: a "); entry (js "APPROVE:a");
               entry (js "APPROVE:z")] eq_refl eq_refl)
    as (r & Hr & Hs & _ & Hcount).
  exists r. split; [exact Hr|]. split; [exact Hs|].
  apply (Hcount [js "a"]).
  - apply NoDup_singleton.
  - intros x. split.
    + intros Hx. apply list_elem_of_singleton in Hx as ->. split.
      * apply list_elem_of_here.
      * exists (entry (js "APPROVE: a ")). split; [apply list_elem_of_here|].
        exists (js " a "). split; [|vm_compute; reflexivity].
        eexists _, _. split; reflexivity.
    + intros [Hx [m [Hm [rest [[fields [toStr [-> Hl]]] Ht]]]]].
      apply list_elem_of_singleton.
      assert (Hrest : rest = js " a " \/ rest = js "a" \/ rest = js "z").
      { apply elem_of_cons in Hm as [Hm|Hm];
          [|apply elem_of_cons in Hm as [Hm|Hm];
             [|apply list_elem_of_singleton in Hm]];
          unfold entry, plainObject in Hm; injection Hm as Hf _; subst fields;
          vm_compute in Hl; injection Hl as Hl; subst rest; auto. }
      destruct Hrest as [ Hr' | [ Hr' | Hr' ] ]; subst rest;
        vm_compute in Ht; subst x;
        [reflexivity|reflexivity|].
      apply elem_of_cons in Hx as [Hx|Hx]; [discriminate Hx|].
      apply list_elem_of_singleton in Hx. discriminate Hx.
Defined.

(** ** The threshold comparison *)

(** C2, as the code has it.  Whenever [tallyApprovals] returns a success,
    and for every result it returns when the threshold is at least 1,
    [isApproved] is the comparison [approvalCount >= threshold].  Every
    response the normalizer can read gives a success: an empty history then
    has count 0 and, for a threshold of at least 1, [isApproved = false];
    with threshold 0 the result is approved. *)
Theorem isApproved_is_threshold_comparison
    (JSON_parse : jsstring -> option value) (tools : Tools)
    (topicId : jsstring) (approvers : list jsstring) (threshold : Z) :
  (forall r,
      tallyApprovals JSON_parse tools topicId approvers threshold = Returns r ->
      ta_status r = js "success" \/ 1 ≤ threshold ->
      ta_isApproved r = bool_decide (threshold ≤ Z.of_nat (ta_approvals r)))
  /\ (forall response messages,
        getMessages tools topicId = Returns response ->
        extractMessages JSON_parse response = Returns messages ->
        exists r,
          tallyApprovals JSON_parse tools topicId approvers threshold
          = Returns r
          /\ ta_status r = js "success"
          /\ (messages = [] ->
              ta_approvals r = 0%nat
              /\ (1 ≤ threshold -> ta_isApproved r = false))
          /\ (threshold = 0 -> ta_isApproved r = true)).
Proof.
  split.
  - intros r Hr.
    destruct (tallyApprovals_returns _ _ _ _ _ _ Hr)
      as [(response & messages & _ & _ & ->)|(cause & -> & _)]; [done|].
    cbn [ta_status ta_isApproved ta_approvals].
    intros [Hs|Hthr]; [by apply symmetry, success_not_error in Hs|].
    symmetry. apply bool_decide_eq_false. lia.
  - intros response messages Hread Hex. eexists.
    split; [by apply tallyApprovals_read with response|].
    unfold tallyOf. cbn [ta_status ta_approvals ta_isApproved].
    split; [done|]. split.
    + intros ->. unfold validApprovals. cbn [foldl]. rewrite size_empty.
      split; [done|]. intros Hthr. apply bool_decide_eq_false. lia.
    + intros ->. apply bool_decide_eq_true. lia.
Qed.

Lemma isApproved_is_threshold_comparison_witness :
  (exists r,
      tallyApprovals parseJSON (fixedLog (Returns (VArr [])))
        (js "0.0.5005") [js "a"] 1 = Returns r
      /\ ta_approvals r = 0%nat /\ ta_isApproved r = false)
  /\ (exists r,
        tallyApprovals parseJSON (fixedLog (Returns (VArr [])))
          (js "0.0.5005") [js "a"] 0 = Returns r
        /\ ta_isApproved r = true)
  /\ (exists r,
        tallyApprovals parseJSON brokenLog (js "0.0.5005") [js "a"] 1
        = Returns r
        /\ ta_isApproved r = bool_decide (1 ≤ Z.of_nat (ta_approvals r))).
Proof.
  split; [|split].
  - destruct (isApproved_is_threshold_comparison parseJSON
                (fixedLog (Returns (VArr []))) (js "0.0.5005") [js "a"] 1)
      as (_ & Hread).
    destruct (Hread (VArr []) [] eq_refl eq_refl)
      as (r & Hr & _ & Hempty & _).
    destruct (Hempty eq_refl) as [Hcount Hnot].
    exists r. split; [exact Hr|]. split; [exact Hcount | apply Hnot; lia].
  - destruct (isApproved_is_threshold_comparison parseJSON
                (fixedLog (Returns (VArr []))) (js "0.0.5005") [js "a"] 0)
      as (_ & Hread).
    destruct (Hread (VArr []) [] eq_refl eq_refl)
      as (r & Hr & _ & _ & Hzero).
    exists r. split; [exact Hr | apply Hzero; reflexivity].
  - destruct (isApproved_is_threshold_comparison parseJSON brokenLog
                (js "0.0.5005") [js "a"] 1) as (Hcmp & _).
    eexists. split; [reflexivity|].
    apply Hcmp; [reflexivity | right; lia].
Defined.

(** C2 as stated fails when the read fails and the threshold is 0: the error
    result carries count 0 and [isApproved = false], although [0 >= 0]. *)
Lemma isApproved_comparison_fails_on_error :
  exists r,
    tallyApprovals parseJSON brokenLog (js "0.0.5005") [js "a"] 0 = Returns r
    /\ ta_status r = js "error"
    /\ ta_approvals r = 0%nat
    /\ ta_isApproved r = false
    /\ ta_isApproved r <> bool_decide (0 ≤ Z.of_nat (ta_approvals r)).
Proof. eexists. split; [reflexivity|]. vm_compute. repeat split. discriminate. Qed.

(** ** Error results and rejections *)

Lemma convertOrWarn_throws rendering e :
  convertOrWarn rendering = Throws e -> messageReadError e.
Proof.
  unfold convertOrWarn. destruct rendering as [s|e0]; [discriminate|].
  destruct (messageOf e0) as [m|e1] eqn:Hm; cbn [mbind outcome_bind];
    [discriminate|].
  intros [= <-]. by apply messageOf_throws in Hm as [_ Hm].
Qed.

Lemma topicIdOf_throws parsedResponse e :
  topicIdOf parsedResponse = Throws e -> messageReadError e.
Proof.
  unfold topicIdOf.
  repeat match goal with
         | |- context [if ?b then _ else _] => destruct b
         end; try discriminate; apply convertOrWarn_throws.
Qed.

(** Behind its guard [callToString] is the call itself, whatever the text of
    the receiver: the error of a missing method is never produced. *)
Lemma callToString_guarded expr v :
  identifierObject v = true -> callToString v = invokeToString expr v.
Proof.
  unfold identifierObject. intros H.
  apply andb_true_iff in H as [H Hmethod].
  apply andb_true_iff in H as [Htruthy Hobject].
  apply bool_decide_eq_true in Hobject.
  unfold hasToString in Hmethod. unfold callToString, invokeToString.
  destruct v; try discriminate Hobject; try discriminate Htruthy;
    by destruct (toStringMethod _).
Qed.

Lemma extractTopicId_throws JSON_parse topicResponse e :
  extractTopicId JSON_parse topicResponse = Throws e ->
  exists message, e = ThrownError message.
Proof.
  unfold extractTopicId.
  destruct (isUndefined topicResponse); cbn [mbind outcome_bind throwError];
    [intros [= <-]; by eauto|].
  match goal with
  | |- context [mbind _ ?o] => destruct o as [parsed|e0] eqn:Hparsed
  end; cbn [mbind outcome_bind].
  - destruct (topicIdOf parsed) as [[[|c tid]|]|e1] eqn:Hid;
      cbn [mbind outcome_bind throwError]; try discriminate;
      try (intros [= <-]; by eauto).
    intros [= <-]. by apply topicIdOf_throws, messageReadError_message in Hid.
  - intros [= <-].
    destruct topicResponse; try destruct (JSON_parse _);
      try destruct (_ && _); try discriminate;
      injection Hparsed as <-; by eauto.
Qed.

(** The body of the [try] of [createProposal] throws a [null] or an
    [undefined] only when the collaborator does. *)
Lemma createProposal_returns_or_rejects JSON_parse tools d a t :
  (forall r, createProposal JSON_parse tools d a t = Returns r ->
     (cp_status r = js "success" /\ exists topicId, cp_topicId r = Some topicId)
     \/ (cp_status r = js "error" /\ cp_topicId r = None
         /\ exists cause, cp_message r = js "Failed to create proposal: " ++ cause))
  /\ (reportsErrors tools -> exists r, createProposal JSON_parse tools d a t = Returns r)
  /\ (forall e, createProposal JSON_parse tools d a t = Throws e -> messageReadError e).
Proof.
  unfold createProposal.
  match goal with
  | |- context [match ?o with Returns _ => _ | Throws _ => _ end] =>
      destruct o as [tid|e0] eqn:Hbody
  end.
  - split; [|split].
    + intros r [= <-]. left. split; [done|]. by eexists.
    + intros _. by eexists.
    + discriminate.
  - split; [|split].
    + destruct e0 as [| |cause]; cbn [messageOf throwError mbind outcome_bind];
        try discriminate.
      intros r [= <-]. right. split; [done|]. split; [done|]. by exists cause.
    + intros (Hcreate & Hsubmit & _).
      assert (Hmsg : exists cause, e0 = ThrownError cause).
      { destruct (createTopic tools _) as [resp|e1] eqn:Hc;
          cbn [mbind outcome_bind] in Hbody.
        - destruct (extractTopicId JSON_parse resp) as [tid|e2] eqn:Hx;
            cbn [mbind outcome_bind] in Hbody.
          + destruct (submitMessage tools _ _) as [v|e3] eqn:Hs;
              cbn [mbind outcome_bind] in Hbody; [discriminate|].
            injection Hbody as <-.
            by apply messageOf_not_nullish, (Hsubmit _ _ _ Hs).
          + injection Hbody as <-. by apply extractTopicId_throws in Hx.
        - injection Hbody as <-.
          by apply messageOf_not_nullish, (Hcreate _ _ Hc). }
      destruct Hmsg as [cause ->]. by eexists.
    + intros e. destruct (messageOf e0) as [m|e1] eqn:Hm;
        cbn [mbind outcome_bind]; [discriminate|].
      intros [= <-]. by apply messageOf_throws in Hm as [_ Hm].
Qed.


Lemma tallyApprovals_returns_when_errors_reported JSON_parse tools topicId
    approvers threshold :
  throwsErrorsOnly (getMessages tools topicId) ->
  exists r,
    tallyApprovals JSON_parse tools topicId approvers threshold = Returns r.
Proof.
  intros Hread.
  destruct (tallyApprovals JSON_parse tools topicId approvers threshold)
    as [r|e] eqn:Ht; [by eexists|].
  apply tallyApprovals_rejects in Ht as (e0 & He0 & Hm).
  apply messageOf_throws in Hm as [Hn _]. by destruct (Hread _ He0).
Qed.





(** ** Monotonicity *)

(** C4. Reading a log again after further messages were appended never
    gives a smaller count, for the same approvers and threshold; so an
    approved proposal stays approved. *)
Theorem tally_monotone_under_append
    (JSON_parse : jsstring -> option value) (before after : Tools)
    (topicId : jsstring) (approvers : list jsstring) (threshold : Z)
    (response response' : value) (messages extra : list value) :
  getMessages before topicId = Returns response ->
  extractMessages JSON_parse response = Returns messages ->
  getMessages after topicId = Returns response' ->
  extractMessages JSON_parse response' = Returns (messages ++ extra) ->
  exists r1 r2,
    tallyApprovals JSON_parse before topicId approvers threshold = Returns r1
    /\ tallyApprovals JSON_parse after topicId approvers threshold = Returns r2
    /\ (ta_approvals r1 ≤ ta_approvals r2)%nat
    /\ (ta_isApproved r1 = true -> ta_isApproved r2 = true).
Proof.
  intros H1 E1 H2 E2. eexists _, _.
  split; [by apply tallyApprovals_read with response|].
  split; [by apply tallyApprovals_read with response'|].
  unfold tallyOf. cbn [ta_approvals ta_isApproved].
  pose proof (subseteq_size _ _
    (validApprovals_app_subseteq approvers messages extra)) as Hle.
  split; [exact Hle|].
  rewrite !bool_decide_eq_true. lia.
Qed.

Lemma tally_monotone_under_append_witness :
  exists r1 r2,
    tallyApprovals parseJSON
      (fixedLog (Returns (VArr [entry (js "APPROVE:a")])))
      (js "0.0.5005") [js "a"; js "b"] 1 = Returns r1
    /\ tallyApprovals parseJSON
         (fixedLog (Returns (VArr ([entry (js "APPROVE:a")]
                                   ++ [entry (js "APPROVE:b")]))))
         (js "0.0.5005") [js "a"; js "b"] 1 = Returns r2
    /\ (ta_approvals r1 ≤ ta_approvals r2)%nat
    /\ (ta_isApproved r1 = true -> ta_isApproved r2 = true).
Proof.
  apply (tally_monotone_under_append parseJSON
           (fixedLog (Returns (VArr [entry (js "APPROVE:a")])))
           (fixedLog (Returns (VArr ([entry (js "APPROVE:a")]
                                     ++ [entry (js "APPROVE:b")]))))
           (js "0.0.5005") [js "a"; js "b"] 1
           (VArr [entry (js "APPROVE:a")])
           (VArr ([entry (js "APPROVE:a")] ++ [entry (js "APPROVE:b")]))
           [entry (js "APPROVE:a")] [entry (js "APPROVE:b")]
           eq_refl eq_refl eq_refl eq_refl).
Defined.

(** ** A response without a message array *)

(** C10. When the read response, parsed if it is a string, is an object
    that is not an array and whose [messages] field is not an array, the
    tally does not fail: the history counts as empty, the status is
    [success], the count is 0 and [isApproved] is [0 >= threshold]. *)
Theorem tally_of_response_without_messages
    (JSON_parse : jsstring -> option value) (tools : Tools)
    (topicId : jsstring) (approvers : list jsstring) (threshold : Z)
    (response parsed : value) :
  getMessages tools topicId = Returns response ->
  (typeof response <> TString /\ parsed = response)
  \/ (exists text, response = VStr text /\ JSON_parse text = Some parsed) ->
  typeof parsed = TObject ->
  isArray parsed = false ->
  isArray (get parsed (js "messages")) = false ->
  exists r,
    tallyApprovals JSON_parse tools topicId approvers threshold = Returns r
    /\ ta_status r = js "success"
    /\ ta_approvals r = 0%nat
    /\ ta_isApproved r = bool_decide (threshold ≤ 0).
Proof.
  intros Hread Hparsed Hobj Harr Hmsgs.
  assert (Hex : extractMessages JSON_parse response = Returns []).
  { assert (Hof : messagesOf parsed = []).
    { unfold messagesOf. rewrite Harr, Hmsgs. by destruct (_ && _). }
    unfold extractMessages.
    destruct Hparsed as [[Hty ->]|[text [-> Hp]]].
    - destruct response; simpl in *; by rewrite ?Hof.
    - rewrite Hp. simpl. by rewrite Hof. }
  eexists. split; [by apply tallyApprovals_read with response|].
  unfold tallyOf, validApprovals. cbn [ta_status ta_approvals ta_isApproved foldl].
  rewrite size_empty. done.
Qed.

Lemma tally_of_response_without_messages_witness :
  exists r,
    tallyApprovals parseJSON
      (fixedLog (Returns (VStr (js "{}")))) (js "0.0.5005") [js "a"] 1
    = Returns r
    /\ ta_status r = js "success"
    /\ ta_approvals r = 0%nat
    /\ ta_isApproved r = bool_decide (1 ≤ 0).
Proof.
  apply (tally_of_response_without_messages parseJSON
           (fixedLog (Returns (VStr (js "{}")))) (js "0.0.5005") [js "a"] 1
           (VStr (js "{}")) (plainObject [])).
  - reflexivity.
  - right. exists (js "{}"). split; reflexivity.
  - reflexivity.
  - reflexivity.
  - reflexivity.
Defined.

(** ** The topic-identifier normalizer *)

Section TopicIdentifier.

Variable JSON_parse : jsstring -> option value.

Lemma extractTopicId_object fields toStr :
  extractTopicId JSON_parse (VObj fields toStr)
  = (topicId ← topicIdOf (VObj fields toStr);
     match topicId with
     | Some (c :: topicId') => Returns (c :: topicId')
     | _ => throwError (js "Failed to extract Topic ID string from createTopic response. Response type was "
                        ++ typeName TObject ++ js ". Check logs above.")
     end).
Proof. reflexivity. Qed.

Lemma extractTopicId_text text parsed :
  JSON_parse text = Some parsed ->
  extractTopicId JSON_parse (VStr text)
  = (topicId ← topicIdOf parsed;
     match topicId with
     | Some (c :: topicId') => Returns (c :: topicId')
     | _ => throwError (js "Failed to extract Topic ID string from createTopic response. Response type was "
                        ++ typeName TString ++ js ". Check logs above.")
     end).
Proof. intros H. unfold extractTopicId. simpl. by rewrite H. Qed.

Lemma identifies_of_topicIdOf fields toStr id :
  topicIdOf (VObj fields toStr) = Returns (Some id) -> id <> [] ->
  identifies JSON_parse (VObj fields toStr) id.
Proof.
  intros H Hne. unfold identifies. rewrite extractTopicId_object, H.
  cbn [mbind outcome_bind]. by destruct id.
Qed.

Lemma rejects_of_topicIdOf fields toStr :
  topicIdOf (VObj fields toStr) = Returns None ->
  rejects JSON_parse (VObj fields toStr).
Proof.
  intros H. unfold rejects. rewrite extractTopicId_object, H. by eexists.
Qed.

Lemma convertOrWarn_returns s :
  convertOrWarn (Returns s) = Returns (convertedId (Returns s)).
Proof. reflexivity. Qed.

Lemma convertedId_returns s :
  s <> [] -> includesChar 46 s = true -> convertedId (Returns s) = Some s.
Proof.
  intros Hne Hdot. unfold convertedId. rewrite Hdot.
  by rewrite bool_decide_eq_false_2.
Qed.

(** The chain on an object response, one lemma per priority. *)
Section Chain.

Variables (fields : list (jsstring * value))
          (toStr : option (outcome jsstring)).

Let response := VObj fields toStr.
Let topId := get response (js "topicId").
Let receiptId := get (get response (js "receipt")) (js "topicId").

Lemma topicIdOf_priority1 s :
  receiptId = VStr s -> topicIdOf response = Returns (Some s).
Proof.
  subst receiptId response. intros H. unfold topicIdOf.
  cbn [truthy typeof andb]. rewrite bool_decide_eq_true_2 by done.
  cbv zeta. rewrite H.
  destruct (get (VObj fields toStr) (js "receipt")) eqn:Hr;
    simpl in H; try discriminate H.
  reflexivity.
Qed.

Lemma topicIdOf_skip1 :
  typeof receiptId <> TString ->
  topicIdOf response
  = if bool_decide (typeof topId = TString) then Returns (stringOf topId)
    else if identifierObject topId then convertOrWarn (callToString topId)
    else if identifierObject receiptId
         then convertOrWarn (callToString receiptId)
    else Returns None.
Proof.
  subst receiptId topId response. intros H. unfold topicIdOf.
  cbn [truthy typeof andb]. rewrite bool_decide_eq_true_2 by done.
  cbv zeta. rewrite (bool_decide_eq_false_2 _ H), andb_false_r.
  unfold identifierObject.
  repeat case_bool_decide; try reflexivity;
    destruct (get (VObj fields toStr) (js "receipt")) eqn:Hr;
    try reflexivity; simpl in *; try done;
    rewrite ?andb_false_r; reflexivity.
Qed.

End Chain.

End TopicIdentifier.

(** What [createProposal] returns once the topic response is known. *)
Lemma createProposal_extract (JSON_parse : jsstring -> option value)
    (tools : Tools) proposalDescription approvers threshold response :
  createTopic tools (js "Approvr Proposal: "
                     ++ substring_to 50 proposalDescription ++ js "...")
  = Returns response ->
  (forall cause, extractTopicId JSON_parse response = throwError cause ->
     createProposal JSON_parse tools proposalDescription approvers threshold
     = Returns {| cp_topicId := None; cp_status := js "error";
                  cp_message := js "Failed to create proposal: " ++ cause |})
  /\ (forall id v, identifies JSON_parse response id ->
        submitMessage tools (VStr id)
          (initialMessage proposalDescription approvers threshold) = Returns v ->
        createProposal JSON_parse tools proposalDescription approvers threshold
        = Returns {| cp_topicId := Some id; cp_status := js "success";
                     cp_message := js "Proposal created. Share this Topic ID: "
                                   ++ id |}).
Proof.
  intros Hcreate. unfold createProposal, identifies.
  rewrite Hcreate. cbn [mbind outcome_bind]. split.
  - by intros cause ->.
  - intros id v -> Hsub. cbn [mbind outcome_bind]. by rewrite Hsub.
Qed.

(** C5 as stated fails: with an unconvertible object identifier on the top
    level, the identifier under [receipt] is not consulted although it passes
    the fourth shape's check, and [createProposal] reports an error. *)
Lemma fourth_shape_not_tried_after_third :
  let response :=
    plainObject [(js "topicId", plainObject []);
                 (js "receipt",
                  plainObject [(js "topicId", sdkObject (js "0.0.5005"))])] in
  let topId := get response (js "topicId") in
  let receiptId := get (get response (js "receipt")) (js "topicId") in
  typeof receiptId <> TString
  /\ typeof topId <> TString
  /\ callToString topId = Returns (js "[object Object]")
  /\ includesChar 46 (js "[object Object]") = false
  /\ identifierObject receiptId = true
  /\ convertedId (callToString receiptId) = Some (js "0.0.5005")
  /\ rejects parseJSON response
  /\ exists r,
       createProposal parseJSON (topicCreator response) (js "Buy gear")
         [js "a"] 1 = Returns r
       /\ cp_status r = js "error"
       /\ cp_topicId r = None.
Proof.
  cbv zeta. split; [discriminate|]. split; [discriminate|].
  split; [reflexivity|]. split; [reflexivity|]. split; [reflexivity|].
  split; [reflexivity|]. split; [eexists; reflexivity|].
  eexists. split; [reflexivity|]. split; reflexivity.
Qed.

(** C5, as the code has it.  A string response is parsed first and fails
    when it is not JSON; a response that is neither a string nor a non-null
    object fails.  On the parsed object the identifier is, in this order:
    (1) a string under [receipt]; (2) a string on the top level; (3) when the
    top-level identifier is an object with a [toString], its rendering if
    that is non-empty and contains a dot; (4) when the top-level identifier
    is no such object, the rendering of the object under [receipt] on the
    same check.  An empty identifier or no match is an error.  The four
    shapes of one dotted identifier give that identifier. *)
Theorem topic_identifier_priorities (JSON_parse : jsstring -> option value) :
  (forall text, JSON_parse text = None -> rejects JSON_parse (VStr text))
  /\ (forall text fields toStr id,
        JSON_parse text = Some (VObj fields toStr) ->
        identifies JSON_parse (VStr text) id
        <-> identifies JSON_parse (VObj fields toStr) id)
  /\ (forall response,
        typeof response <> TString ->
        typeof response <> TObject \/ isNull response = true ->
        rejects JSON_parse response)
  /\ (forall fields toStr,
        let response := VObj fields toStr in
        let topId := get response (js "topicId") in
        let receiptId := get (get response (js "receipt")) (js "topicId") in
        (forall s, receiptId = VStr s -> s <> [] ->
                   identifies JSON_parse response s)
        /\ (forall s, typeof receiptId <> TString -> topId = VStr s ->
                      s <> [] -> identifies JSON_parse response s)
        /\ (forall s, typeof receiptId <> TString -> typeof topId <> TString ->
                      identifierObject topId = true ->
                      callToString topId = Returns s ->
                      s <> [] -> includesChar 46 s = true ->
                      identifies JSON_parse response s)
        /\ (forall s, typeof receiptId <> TString -> typeof topId <> TString ->
                      identifierObject topId = false ->
                      identifierObject receiptId = true ->
                      callToString receiptId = Returns s ->
                      s <> [] -> includesChar 46 s = true ->
                      identifies JSON_parse response s)
        /\ (typeof receiptId <> TString -> typeof topId <> TString ->
            identifierObject topId = false ->
            identifierObject receiptId = false ->
            rejects JSON_parse response)
        /\ (receiptId = VStr []
            \/ (typeof receiptId <> TString /\ topId = VStr []) ->
            rejects JSON_parse response))
  /\ (forall id text,
        id <> [] -> includesChar 46 id = true ->
        JSON_parse text = Some (plainObject [(js "topicId", VStr id)]) ->
        identifies JSON_parse (VStr text) id
        /\ identifies JSON_parse (plainObject [(js "topicId", VStr id)]) id
        /\ identifies JSON_parse (plainObject [(js "topicId", sdkObject id)]) id
        /\ identifies JSON_parse
             (plainObject [(js "receipt",
                            plainObject [(js "topicId", VStr id)])]) id
        /\ identifies JSON_parse
             (plainObject [(js "receipt",
                            plainObject [(js "topicId", sdkObject id)])]) id).
Proof.
  split; [|split; [|split; [|split]]].
  - intros text H. unfold rejects, extractTopicId. simpl. rewrite H.
    by eexists.
  - intros text fields toStr id H. unfold identifies.
    rewrite (extractTopicId_text _ _ _ H), extractTopicId_object.
    destruct (topicIdOf (VObj fields toStr)) as [[[|c t]|]|e]; done.
  - intros response Hs Ho. unfold rejects, extractTopicId.
    destruct response; simpl in *; try done; try (by eexists);
      destruct Ho; done.
  - intros fields toStr response topId receiptId.
    subst response topId receiptId.
    split; [|split; [|split; [|split; [|split]]]].
    + intros s H Hne. apply identifies_of_topicIdOf; [|done].
      by apply topicIdOf_priority1.
    + intros s H1 H2 Hne. apply identifies_of_topicIdOf; [|done].
      rewrite (topicIdOf_skip1 fields toStr H1), H2. reflexivity.
    + intros s H1 H2 H3 H4 Hne Hdot. apply identifies_of_topicIdOf; [|done].
      rewrite (topicIdOf_skip1 fields toStr H1), (bool_decide_eq_false_2 _ H2), H3, H4.
      rewrite convertOrWarn_returns. f_equal. by apply convertedId_returns.
    + intros s H1 H2 H3 H4 H5 Hne Hdot. apply identifies_of_topicIdOf; [|done].
      rewrite (topicIdOf_skip1 fields toStr H1), (bool_decide_eq_false_2 _ H2), H3, H4, H5.
      rewrite convertOrWarn_returns. f_equal. by apply convertedId_returns.
    + intros H1 H2 H3 H4. apply rejects_of_topicIdOf.
      by rewrite (topicIdOf_skip1 fields toStr H1), (bool_decide_eq_false_2 _ H2), H3, H4.
    + intros [H|[H1 H2]]; unfold rejects; rewrite extractTopicId_object.
      * rewrite (topicIdOf_priority1 fields toStr _ H). by eexists.
      * rewrite (topicIdOf_skip1 fields toStr H1), H2. simpl. by eexists.
  - intros id text Hne Hdot Hparse.
    assert (Hconv : convertedId (Returns id) = Some id)
      by by apply convertedId_returns.
    split; [|split; [|split; [|split]]].
    + unfold identifies. rewrite (extractTopicId_text _ _ _ Hparse).
      cbn. by destruct id.
    + by apply identifies_of_topicIdOf.
    + apply identifies_of_topicIdOf; [|done].
      exact (f_equal Returns Hconv).
    + by apply identifies_of_topicIdOf.
    + apply identifies_of_topicIdOf; [|done].
      exact (f_equal Returns Hconv).
Qed.

Lemma topic_identifier_priorities_witness :
  rejects parseJSON (VStr (js "created topic 0.0.5005"))
  /\ rejects parseJSON (VNum (js "5005"))
  /\ identifies parseJSON
       (plainObject [(js "topicId", VStr (js "0.0.1"));
                     (js "receipt", plainObject [(js "topicId", VStr (js "0.0.2"))])])
       (js "0.0.2")
  /\ identifies parseJSON
       (plainObject [(js "topicId", VStr (js "0.0.1"));
                     (js "receipt", plainObject [(js "topicId", sdkObject (js "0.0.2"))])])
       (js "0.0.1")
  /\ identifies parseJSON
       (plainObject [(js "topicId", sdkObject (js "0.0.1"));
                     (js "receipt", plainObject [(js "topicId", sdkObject (js "0.0.2"))])])
       (js "0.0.1")
  /\ identifies parseJSON
       (plainObject [(js "topicId", VNull);
                     (js "receipt", plainObject [(js "topicId", sdkObject (js "0.0.2"))])])
       (js "0.0.2")
  /\ rejects parseJSON (plainObject [(js "topicId", VNum (js "5005"))])
  /\ rejects parseJSON (plainObject [(js "topicId", VStr [])])
  /\ identifies parseJSON (VStr wrappedTopicText) (js "0.0.5005").
Proof.
  destruct (topic_identifier_priorities parseJSON)
    as (Htext & _ & Hother & Hchain & Hshapes).
  pose (plain := Some (Returns (js "[object Object]"))).
  split; [apply Htext; reflexivity|].
  split; [apply Hother; [discriminate | left; discriminate]|].
  split.
  { destruct (Hchain [(js "topicId", VStr (js "0.0.1"));
                      (js "receipt",
                       plainObject [(js "topicId", VStr (js "0.0.2"))])] plain)
      as (P1 & _).
    apply P1; [reflexivity | discriminate]. }
  split.
  { destruct (Hchain [(js "topicId", VStr (js "0.0.1"));
                      (js "receipt",
                       plainObject [(js "topicId", sdkObject (js "0.0.2"))])]
                plain) as (_ & P2 & _).
    apply P2; [discriminate | reflexivity | discriminate]. }
  split.
  { destruct (Hchain [(js "topicId", sdkObject (js "0.0.1"));
                      (js "receipt",
                       plainObject [(js "topicId", sdkObject (js "0.0.2"))])]
                plain) as (_ & _ & P3 & _).
    apply P3; [discriminate | discriminate | reflexivity | reflexivity
              | discriminate | reflexivity]. }
  split.
  { destruct (Hchain [(js "topicId", VNull);
                      (js "receipt",
                       plainObject [(js "topicId", sdkObject (js "0.0.2"))])]
                plain) as (_ & _ & _ & P4 & _).
    apply P4; [discriminate | discriminate | reflexivity | reflexivity
              | reflexivity | discriminate | reflexivity]. }
  split.
  { destruct (Hchain [(js "topicId", VNum (js "5005"))] plain)
      as (_ & _ & _ & _ & Pnone & _).
    apply Pnone; [discriminate | discriminate | reflexivity | reflexivity]. }
  split.
  { destruct (Hchain [(js "topicId", VStr [])] plain)
      as (_ & _ & _ & _ & _ & Pempty).
    apply Pempty. right. split; [discriminate | reflexivity]. }
  apply (Hshapes (js "0.0.5005") wrappedTopicText);
    [discriminate | reflexivity | reflexivity].
Defined.


(** ** The message-list normalizer *)

Lemma foldl_tallyStep_skip approvers before bad after acc :
  messageContent bad = None ->
  foldl (tallyStep approvers) acc (before ++ bad :: after)
  = foldl (tallyStep approvers) acc (before ++ after).
Proof.
  intros Hbad. rewrite !foldl_app.
  cbn [foldl]. f_equal. unfold tallyStep. by rewrite Hbad.
Qed.

Lemma proposalDetails_skip approvers threshold before bad after :
  messageContent bad = None ->
  proposalDetails approvers threshold (before ++ bad :: after)
  = proposalDetails approvers threshold (before ++ after).
Proof.
  intros Hbad. induction before as [|m before IH].
  - rewrite !app_nil_l. cbn [proposalDetails]. by rewrite Hbad.
  - rewrite <- !app_comm_cons. cbn [proposalDetails].
    destruct (messageContent m) as [content|]; [|exact IH].
    destruct (startsWith (js "Proposal:") content); [reflexivity | exact IH].
Qed.

Lemma tallyOf_skip topicId approvers threshold before bad after :
  messageContent bad = None ->
  tallyOf topicId approvers threshold (before ++ bad :: after)
  = tallyOf topicId approvers threshold (before ++ after).
Proof.
  intros Hbad. unfold tallyOf, validApprovals, approvedReport.
  by rewrite foldl_tallyStep_skip, proposalDetails_skip.
Qed.

(** C6. The message list is the parsed response itself when that is an
    array, and its [messages] field when the response is an object with an
    array there; a string response is parsed as JSON first.  An entry
    without a string [message] has no text and is skipped: the tally is the
    one of the log without it, and no error is raised.  The JSON text of an object
    whose [messages] array holds one object with [message] equal to
    [APPROVE:a] yields the single text [APPROVE:a]. *)
Theorem message_list_normalizer (JSON_parse : jsstring -> option value) :
  (forall items, extractMessages JSON_parse (VArr items) = Returns items)
  /\ (forall fields toStr items,
        get (VObj fields toStr) (js "messages") = VArr items ->
        extractMessages JSON_parse (VObj fields toStr) = Returns items)
  /\ (forall text items,
        JSON_parse text = Some (VArr items) ->
        extractMessages JSON_parse (VStr text) = Returns items)
  /\ (forall text fields toStr items,
        JSON_parse text = Some (VObj fields toStr) ->
        get (VObj fields toStr) (js "messages") = VArr items ->
        extractMessages JSON_parse (VStr text) = Returns items)
  /\ (forall msgObj,
        typeof (get msgObj (js "message")) <> TString ->
        messageContent msgObj = None)
  /\ (forall before bad after,
        messageContent bad = None ->
        contents (before ++ bad :: after) = contents (before ++ after)
        /\ forall tools topicId approvers threshold,
            getMessages tools topicId = Returns (VArr (before ++ bad :: after)) ->
            tallyApprovals JSON_parse tools topicId approvers threshold
            = Returns (tallyOf topicId approvers threshold (before ++ after)))
  /\ (JSON_parse wrappedMessagesText
      = Some (plainObject
                [(js "messages",
                  VArr [plainObject [(js "message", VStr (js "APPROVE:a"))]])]) ->
      exists messages,
        extractMessages JSON_parse (VStr wrappedMessagesText) = Returns messages
        /\ contents messages = [js "APPROVE:a"]).
Proof.
  split; [done|].
  split.
  { intros fields toStr items H. unfold extractMessages, messagesOf. simpl.
    simpl in H. by rewrite H. }
  split.
  { intros text items H. unfold extractMessages. by rewrite H. }
  split.
  { intros text fields toStr items H Hm. unfold extractMessages, messagesOf.
    rewrite H. simpl. simpl in Hm. by rewrite Hm. }
  split.
  { intros msgObj H. unfold messageContent.
    destruct (_ && _); [|done].
    by destruct (get msgObj (js "message")). }
  split.
  { intros before bad after Hbad. split.
    - unfold contents. rewrite !omap_app. simpl. by rewrite Hbad.
    - intros tools topicId approvers threshold Hread.
      rewrite (tallyApprovals_array _ _ _ _ _ _ Hread).
      f_equal. by apply tallyOf_skip. }
  intros H. eexists. split.
  - unfold extractMessages. rewrite H. reflexivity.
  - reflexivity.
Qed.

Lemma message_list_normalizer_witness :
  (exists messages,
      extractMessages parseJSON (VStr wrappedMessagesText) = Returns messages
      /\ contents messages = [js "APPROVE:a"])
  /\ messageContent (plainObject [(js "content", VStr (js "APPROVE:a"))]) = None
  /\ tallyApprovals parseJSON
       (fixedLog (Returns (VArr ([entry (js "APPROVE:a")]
                                 ++ VNum (js "7") :: [entry (js "APPROVE:b")]))))
       (js "0.0.5005") [js "a"; js "b"] 2
     = Returns (tallyOf (js "0.0.5005") [js "a"; js "b"] 2
                  ([entry (js "APPROVE:a")] ++ [entry (js "APPROVE:b")])).
Proof.
  destruct (message_list_normalizer parseJSON)
    as (_ & _ & _ & _ & Hlack & Hskip & Hscenario).
  split; [apply Hscenario; vm_compute; reflexivity|].
  split; [apply Hlack; discriminate|].
  destruct (Hskip [entry (js "APPROVE:a")] (VNum (js "7"))
              [entry (js "APPROVE:b")] eq_refl) as [_ Htally].
  apply Htally. reflexivity.
Defined.

(** ** The order of [sort] *)

#[global] Instance str_le_total : Total str_le.
Proof.
  intros x. unfold str_le. induction x as [|a x IH]; intros [|b y]; simpl;
    try (by left); try (by right).
  destruct (N.ltb_spec a b), (N.ltb_spec b a), (N.eqb_spec a b),
    (N.eqb_spec b a); try lia; try (by left); try (by right).
  apply IH.
Qed.

#[global] Instance str_le_trans : Transitive str_le.
Proof.
  intros x. unfold str_le. induction x as [|a x IH]; intros [|b y] [|c z];
    simpl; try done.
  destruct (N.ltb_spec a b), (N.ltb_spec b c), (N.ltb_spec a c),
    (N.eqb_spec a b), (N.eqb_spec b c), (N.eqb_spec a c);
    try lia; try done.
  apply IH.
Qed.



(** ** The report of an approved proposal *)

Lemma proposalDetails_first approvers threshold before msgObj after content :
  (forall m text, m ∈ before -> messageContent m = Some text ->
                  startsWith (js "Proposal:") text = false) ->
  messageContent msgObj = Some content ->
  startsWith (js "Proposal:") content = true ->
  proposalDetails approvers threshold (before ++ msgObj :: after)
  = (decodeDescription content, approvers, numberToString threshold).
Proof.
  intros Hbefore Hc Hs. induction before as [|m before IH].
  - rewrite app_nil_l. cbn [proposalDetails]. by rewrite Hc, Hs.
  - rewrite <- app_comm_cons. cbn [proposalDetails].
    assert (IH' : proposalDetails approvers threshold (before ++ msgObj :: after)
                  = (decodeDescription content, approvers, numberToString threshold)).
    { apply IH. intros m' text Hm'. apply Hbefore. by right. }
    destruct (messageContent m) as [text|] eqn:Hm; [|exact IH'].
    rewrite (Hbefore m text); [exact IH' | by left | done].
Qed.

Lemma proposalDetails_none approvers threshold messages :
  (forall m text, m ∈ messages -> messageContent m = Some text ->
                  startsWith (js "Proposal:") text = false) ->
  proposalDetails approvers threshold messages
  = (descriptionPlaceholder, [], js "N/A").
Proof.
  intros Hnone. induction messages as [|m messages IH]; [done|].
  cbn [proposalDetails].
  assert (IH' : proposalDetails approvers threshold messages
                = (descriptionPlaceholder, [], js "N/A")).
  { apply IH. intros m' text Hm'. apply Hnone. by right. }
  destruct (messageContent m) as [text|] eqn:Hm; [|exact IH'].
  rewrite (Hnone m text); [exact IH' | by left | done].
Qed.



Lemma tallyOf_approved_message topicId approvers threshold messages :
  ta_isApproved (tallyOf topicId approvers threshold messages) = true ->
  ta_message (tallyOf topicId approvers threshold messages)
  = approvedReport topicId approvers threshold messages
      (validApprovals approvers messages).
Proof. unfold tallyOf. cbn [ta_isApproved ta_message]. by intros ->. Qed.




(** The scenario of the specification, evaluated. *)
Example gear_report :
  exists r,
    tallyApprovals parseJSON (fixedLog (Returns (VArr gearLog)))
      (js "0.0.5005") [js "a"; js "b"; js "c"] 2 = Returns r
    /\ ta_approvals r = 2%nat
    /\ ta_isApproved r = true
    /\ includes (js "Approvers:" ++ nl
                 ++ js "- a (approved)" ++ nl
                 ++ js "- b (approved)" ++ nl
                 ++ js "- c (not approved)" ++ nl) (ta_message r) = true
    /\ includes (js "https://hashscan.io/testnet/topic/0.0.5005")
         (ta_message r) = true.
Proof. eexists. split; [reflexivity|]. vm_compute. repeat split. Qed.


(** ** Lines and the description pattern *)

Lemma hd_split_app_newline s rest :
  hd [] (split 10 (s ++ 10%N :: rest)) = hd [] (split 10 s).
Proof.
  induction s as [|c s IH]; [reflexivity|].
  rewrite <- app_comm_cons. cbn [split].
  destruct (N.eqb c 10); [reflexivity|].
  destruct (split 10 (s ++ 10%N :: rest)) as [|seg segs],
    (split 10 s) as [|seg' segs']; simpl in *; by subst.
Qed.

Lemma split_nonempty sep s : split sep s <> [].
Proof.
  destruct s as [|c s]; simpl; [done|].
  destruct (N.eqb c sep); [done|]. by destruct (split sep s).
Qed.

Lemma hd_split_app_prefix p s :
  Forall (fun c => c <> 10%N) p ->
  hd [] (split 10 (p ++ s)) = p ++ hd [] (split 10 s).
Proof.
  induction 1 as [|c p Hc _ IH]; [reflexivity|].
  rewrite <- !app_comm_cons. cbn [split].
  destruct (N.eqb_spec c 10) as [->|_]; [done|].
  pose proof (split_nonempty 10 (p ++ s)) as Hne.
  destruct (split 10 (p ++ s)) as [|seg segs]; [done|].
  simpl in *. by rewrite IH.
Qed.

Lemma split_hd_tail sep s :
  split sep s = hd [] (split sep s) :: tail (split sep s).
Proof.
  pose proof (split_nonempty sep s) as Hne. by destruct (split sep s).
Qed.

Lemma split_first_line (s rest : jsstring) :
  Forall (fun c => c <> 10%N) s ->
  split 10 (s ++ 10%N :: rest) = s :: split 10 rest.
Proof.
  induction 1 as [|c s Hc _ IH]; [reflexivity|].
  rewrite <- app_comm_cons. cbn [split].
  destruct (N.eqb_spec c 10) as [->|_]; [done|].
  by rewrite IH.
Qed.

Lemma singleLine_no_newline s : singleLine s -> Forall (fun c => c <> 10%N) s.
Proof. intros H. eapply Forall_impl; [exact H|]. by intros c Hc ->. Qed.

Lemma matchDotPlusEnd_singleLine s :
  s <> [] -> singleLine s -> matchDotPlusEnd s = Some s.
Proof.
  intros Hne Hs. destruct s as [|c s]; [done|]. unfold matchDotPlusEnd.
  replace (forallb _ (c :: s)) with true; [done|].
  symmetry. apply forallb_forall. intros a Ha.
  apply list_elem_of_In in Ha.
  unfold singleLine in Hs. rewrite Forall_forall in Hs. by rewrite (Hs a Ha).
Qed.

Lemma trim_cons_space c s : isWhiteSpace c = true -> trim (c :: s) = trim s.
Proof. intros H. unfold trim. simpl. by rewrite H. Qed.

(** On a non-empty single line the pattern [\s*(.+)$] always matches, and
    its group trims to the trimmed line. *)
Lemma matchSpacesDotPlusEnd_singleLine s :
  s <> [] -> singleLine s ->
  exists g, matchSpacesDotPlusEnd s = Some g /\ g <> [] /\ trim g = trim s.
Proof.
  induction s as [|c s IH]; [done|]. intros _ Hs.
  pose proof (matchDotPlusEnd_singleLine (c :: s) ltac:(done) Hs) as Hdot.
  cbn [matchSpacesDotPlusEnd]. destruct (isWhiteSpace c) eqn:Hw.
  - destruct s as [|c' s'].
    + cbn [matchSpacesDotPlusEnd]. exists [c]. by rewrite Hdot.
    + apply Forall_cons_1 in Hs as [_ Hs'].
      destruct (IH ltac:(done) Hs') as (g & -> & Hg & Htrim).
      exists g. by rewrite (trim_cons_space c _ Hw).
  - exists (c :: s). by rewrite Hdot.
Qed.

Lemma decodeDescription_initialMessage description approvers threshold :
  singleLine description ->
  decodeDescription (initialMessage description approvers threshold)
  = trim description.
Proof.
  intros Hs. unfold decodeDescription, initialMessage, nl.
  assert (Hsplit :
    split 10 (js "Proposal: " ++ description
              ++ [10%N] ++ js "Approvers: " ++ join (js ", ") approvers
              ++ [10%N] ++ js "Threshold: " ++ numberToString threshold)
    = (js "Proposal: " ++ description)
      :: split 10 (js "Approvers: " ++ join (js ", ") approvers
                   ++ [10%N] ++ js "Threshold: " ++ numberToString threshold)).
  { rewrite (app_assoc (js "Proposal: ")). apply split_first_line.
    apply Forall_app. split; [|by apply singleLine_no_newline].
    repeat constructor; discriminate. }
  rewrite Hsplit.
  assert (Hmatch : descMatch (js "Proposal: " ++ description)
                   = matchSpacesDotPlusEnd (32%N :: description)).
  { reflexivity. }
  rewrite Hmatch.
  destruct (matchSpacesDotPlusEnd_singleLine (32%N :: description))
    as (g & -> & Hg & Htrim); [done | by constructor |].
  rewrite bool_decide_eq_false_2 by done.
  rewrite Htrim. by apply trim_cons_space.
Qed.

(** The description decoded from a proposal text whose first line is
    [Proposal:] followed by [line]. *)
Lemma decodeDescription_line line rest :
  line <> [] -> singleLine line ->
  rest = [] \/ (exists more, rest = nl ++ more) ->
  decodeDescription (js "Proposal:" ++ line ++ rest) = trim line.
Proof.
  intros Hne Hline Hrest. unfold decodeDescription.
  rewrite split_hd_tail.
  assert (Hhd : hd [] (split 10 (js "Proposal:" ++ line ++ rest))
                = js "Proposal:" ++ line).
  { rewrite app_assoc, hd_split_app_prefix.
    - destruct Hrest as [->|[more ->]]; cbn; by rewrite app_nil_r.
    - apply Forall_app. split; [repeat constructor; discriminate|].
      by apply singleLine_no_newline. }
  rewrite Hhd. unfold descMatch. rewrite startsWith_app.
  unfold substring_from. rewrite drop_app_length.
  destruct (matchSpacesDotPlusEnd_singleLine line Hne Hline)
    as (g & -> & Hg & Htrim).
  by rewrite bool_decide_eq_false_2.
Qed.

(** ** The description shown in the report *)

(** The header of the report, cut before the line [Proposal Details:]. *)
Lemma reportHeader_details approvalCount foundThreshold topicId description
    listing :
  reportHeader approvalCount foundThreshold topicId description ++ listing
  = (proposalApprovedMark ++ js " Proposal Approved!" ++ nl ++ nl
     ++ js "The required number of approvals ("
     ++ numberToString (Z.of_nat approvalCount) ++ js "/" ++ foundThreshold
     ++ js ") has been reached for the proposal in topic `" ++ topicId
     ++ js "`." ++ nl ++ nl)
    ++ js "Proposal Details:" ++ nl ++ description ++ nl ++ nl
    ++ js "Approvers:" ++ nl ++ listing.
Proof. unfold reportHeader. by rewrite <- !app_assoc. Qed.

(** C9. In the report of an approved proposal the text between the line
    [Proposal Details:] and the line [Approvers:] is the description decoded
    from the first log entry whose text starts with [Proposal:], whatever
    entries follow it: when that text is [Proposal:] followed by a non-empty
    line, the description is that line without its surrounding white space.
    A log without such an entry is no error: the tally succeeds and the
    report shows [Proposal details not found.] in that place. *)
Theorem description_from_first_proposal_record
    (JSON_parse : jsstring -> option value) (tools : Tools)
    (topicId : jsstring) (approvers : list jsstring) (threshold : Z) :
  (forall response before msgObj after rest,
      getMessages tools topicId = Returns response ->
      extractMessages JSON_parse response
      = Returns (before ++ msgObj :: after) ->
      (forall m rest', m ∈ before -> ~ hasText m (js "Proposal:" ++ rest')) ->
      hasText msgObj (js "Proposal:" ++ rest) ->
      exists r,
        tallyApprovals JSON_parse tools topicId approvers threshold = Returns r
        /\ ta_status r = js "success"
        /\ (ta_isApproved r = true ->
            exists description preamble listing,
              ta_message r
              = preamble ++ js "Proposal Details:" ++ nl ++ description ++ nl
                ++ nl ++ js "Approvers:" ++ nl ++ listing
              /\ description = decodeDescription (js "Proposal:" ++ rest)
              /\ (forall line more,
                    line <> [] -> singleLine line ->
                    rest = line \/ rest = line ++ nl ++ more ->
                    description = trim line)))
  /\ (forall response messages,
        getMessages tools topicId = Returns response ->
        extractMessages JSON_parse response = Returns messages ->
        (forall m rest, m ∈ messages -> ~ hasText m (js "Proposal:" ++ rest)) ->
        exists r,
          tallyApprovals JSON_parse tools topicId approvers threshold
          = Returns r
          /\ ta_status r = js "success"
          /\ (ta_isApproved r = true ->
              exists preamble listing,
                ta_message r
                = preamble ++ js "Proposal Details:" ++ nl
                  ++ js "Proposal details not found." ++ nl ++ nl
                  ++ js "Approvers:" ++ nl ++ listing)).
Proof.
  assert (Hno : forall l : list value,
             (forall m rest, m ∈ l -> ~ hasText m (js "Proposal:" ++ rest)) ->
             forall m text, m ∈ l -> messageContent m = Some text ->
                            startsWith (js "Proposal:") text = false).
  { intros l Hl m text Hm Hc.
    destruct (startsWith (js "Proposal:") text) eqn:Hs; [|done].
    apply startsWith_iff in Hs as [rest ->].
    destruct (Hl m rest Hm). by apply messageContent_hasText. }
  split.
  - intros response before msgObj after rest Hread Hex Hb Hc.
    eexists. split; [by apply tallyApprovals_read with response|].
    split; [done|]. intros Happroved.
    rewrite (tallyOf_approved_message _ _ _ _ Happroved).
    unfold approvedReport.
    rewrite (proposalDetails_first _ _ _ _ _ (js "Proposal:" ++ rest)
               (Hno _ Hb) (proj2 (messageContent_hasText _ _) Hc)
               (startsWith_app _ _)).
    rewrite reportHeader_details.
    eexists (decodeDescription (js "Proposal:" ++ rest)), _, _.
    split; [reflexivity|]. split; [reflexivity|].
    intros line more Hne Hline [->| ->].
    + rewrite <- (app_nil_r line) at 1.
      apply decodeDescription_line; auto.
    + apply decodeDescription_line; eauto.
  - intros response messages Hread Hex Hnone.
    eexists. split; [by apply tallyApprovals_read with response|].
    split; [done|]. intros Happroved.
    rewrite (tallyOf_approved_message _ _ _ _ Happroved).
    unfold approvedReport.
    rewrite (proposalDetails_none _ _ _ (Hno _ Hnone)).
    rewrite reportHeader_details. eexists _, _. reflexivity.
Qed.

(** A second [Proposal:] entry after the first one is not shown. *)
Lemma description_from_first_proposal_record_witness :
  (exists r preamble listing,
      tallyApprovals parseJSON
        (fixedLog (Returns (VArr ([entry (js "APPROVE:a")]
                                  ++ entry (js "Proposal: first")
                                  :: [entry (js "Proposal: second")]))))
        (js "0.0.5005") [js "a"] 1 = Returns r
      /\ ta_message r
         = preamble ++ js "Proposal Details:" ++ nl ++ js "first" ++ nl ++ nl
           ++ js "Approvers:" ++ nl ++ listing
      /\ includes (js "second") (ta_message r) = false)
  /\ (exists r preamble listing,
        tallyApprovals parseJSON
          (fixedLog (Returns (VArr [entry (js "APPROVE:a")])))
          (js "0.0.5005") [js "a"] 1 = Returns r
        /\ ta_status r = js "success"
        /\ ta_message r
           = preamble ++ js "Proposal Details:" ++ nl
             ++ js "Proposal details not found." ++ nl ++ nl
             ++ js "Approvers:" ++ nl ++ listing).
Proof.
  split.
  - destruct (description_from_first_proposal_record parseJSON
                (fixedLog (Returns (VArr ([entry (js "APPROVE:a")]
                                          ++ entry (js "Proposal: first")
                                          :: [entry (js "Proposal: second")]))))
                (js "0.0.5005") [js "a"] 1) as [Hfirst _].
    destruct (Hfirst (VArr ([entry (js "APPROVE:a")]
                            ++ entry (js "Proposal: first")
                            :: [entry (js "Proposal: second")]))
                [entry (js "APPROVE:a")] (entry (js "Proposal: first"))
                [entry (js "Proposal: second")] (js " first"))
      as (r & Hr & _ & Hreport).
    + reflexivity.
    + reflexivity.
    + intros m rest' Hm (fields & toStr & Heq & Hl).
      apply list_elem_of_singleton in Hm. subst m.
      injection Heq as <- _. discriminate Hl.
    + eexists _, _. split; reflexivity.
    + destruct Hreport as (description & preamble & listing & Hmsg & _ & Hline).
      { injection Hr as <-. vm_compute. reflexivity. }
      assert (Hd : description = js "first").
      { exact (Hline (js " first") [] ltac:(discriminate)
                 ltac:(repeat constructor) (or_introl eq_refl)). }
      exists r, preamble, listing. split; [exact Hr|]. split.
      * rewrite Hmsg, Hd. reflexivity.
      * injection Hr as <-. vm_compute. reflexivity.
  - destruct (description_from_first_proposal_record parseJSON
                (fixedLog (Returns (VArr [entry (js "APPROVE:a")])))
                (js "0.0.5005") [js "a"] 1) as [_ Hnone].
    destruct (Hnone (VArr [entry (js "APPROVE:a")]) [entry (js "APPROVE:a")])
      as (r & Hr & Hs & Hreport).
    + reflexivity.
    + reflexivity.
    + intros m rest' Hm (fields & toStr & Heq & Hl).
      apply list_elem_of_singleton in Hm. subst m.
      injection Heq as <- _. discriminate Hl.
    + destruct Hreport as (preamble & listing & Hmsg).
      { injection Hr as <-. vm_compute. reflexivity. }
      exists r, preamble, listing. by repeat split.
Defined.

(** ** Round trip of the description *)

(** C8 as stated fails: leading white space is trimmed away, and only the
    first line of a description comes back. *)
Lemma description_round_trip_fails :
  decodeDescription (initialMessage (js " Buy gear") [js "a"] 1)
  = js "Buy gear"
  /\ js "Buy gear" <> js " Buy gear"
  /\ decodeDescription (initialMessage (js "Buy gear" ++ nl ++ js "today")
                          [js "a"] 1)
     = js "Buy gear"
  /\ js "Buy gear" <> js "Buy gear" ++ nl ++ js "today".
Proof. vm_compute. repeat split; discriminate. Qed.

(** C8, as the code has it.  For a description without line terminators and
    without leading or trailing white space, the description [tallyApprovals]
    decodes from the initial message of [createProposal] is the original
    one, whatever the approvers and the threshold, and whatever follows in
    the log. *)
Theorem description_round_trip
    (description : jsstring) (approvers : list jsstring) (threshold : Z)
    (after : list value) :
  singleLine description ->
  trim description = description ->
  decodeDescription (initialMessage description approvers threshold)
  = description
  /\ forall approvers' threshold',
      proposalDetails approvers' threshold'
        (entry (initialMessage description approvers threshold) :: after)
      = (description, approvers', numberToString threshold').
Proof.
  intros Hs Htrim.
  pose proof (decodeDescription_initialMessage description approvers threshold Hs)
    as Hdec.
  rewrite Htrim in Hdec. split; [exact Hdec|].
  intros approvers' threshold'.
  rewrite <- Hdec at 2.
  apply (proposalDetails_first approvers' threshold' [] _ after).
  - intros m text Hm. by apply elem_of_nil in Hm.
  - reflexivity.
  - unfold initialMessage.
    change (js "Proposal: ") with (js "Proposal:" ++ js " ").
    rewrite <- app_assoc. apply startsWith_app.
Qed.

Lemma description_round_trip_witness :
  decodeDescription (initialMessage (js "Buy gear") [js "a"; js "b"] 2)
  = js "Buy gear"
  /\ forall approvers' threshold',
      proposalDetails approvers' threshold'
        (entry (initialMessage (js "Buy gear") [js "a"; js "b"] 2)
         :: [entry (js "APPROVE:a")])
      = (js "Buy gear", approvers', numberToString threshold').
Proof.
  apply (description_round_trip (js "Buy gear") [js "a"; js "b"] 2
           [entry (js "APPROVE:a")]).
  - unfold singleLine. repeat constructor.
  - vm_compute. reflexivity.
Defined.


(** * Further properties of the agent *)

(** ** Approvals submitted and read back *)

Lemma messageContent_entry text : messageContent (entry text) = Some text.
Proof. reflexivity. Qed.

Lemma validApprovals_snoc approvers messages msgObj :
  validApprovals approvers (messages ++ [msgObj])
  = tallyStep approvers (validApprovals approvers messages) msgObj.
Proof. unfold validApprovals. by rewrite foldl_app. Qed.

Lemma tallyStep_approvalMessage approvers acc x :
  tallyStep approvers acc (entry (approvalMessage x))
  = if bool_decide (trim x ∈ approvers) then {[ trim x ]} ∪ acc else acc.
Proof.
  unfold tallyStep. rewrite messageContent_entry.
  unfold approvalMessage. rewrite startsWith_app.
  unfold substring_from. by rewrite drop_app_length.
Qed.

(** X1. The message [submitApproval] appends for [x], read back by
    [tallyApprovals]: the count grows by one when [x], trimmed, is a listed
    approver that no earlier entry approved for, and stays as it was
    otherwise. *)
Theorem submitted_approval_counts_once
    (JSON_parse : jsstring -> option value) (before after : Tools)
    (topicId : jsstring) (approvers : list jsstring) (threshold : Z)
    (response response' : value) (log : list value) (x : jsstring) :
  getMessages before topicId = Returns response ->
  extractMessages JSON_parse response = Returns log ->
  getMessages after topicId = Returns response' ->
  extractMessages JSON_parse response'
  = Returns (log ++ [entry (approvalMessage x)]) ->
  exists r r',
    tallyApprovals JSON_parse before topicId approvers threshold = Returns r
    /\ tallyApprovals JSON_parse after topicId approvers threshold = Returns r'
    /\ let counted :=
         exists msgObj, msgObj ∈ log /\ approvesFor (trim x) msgObj in
       (trim x ∈ approvers -> ~ counted ->
        ta_approvals r' = S (ta_approvals r))
       /\ (trim x ∉ approvers \/ counted -> ta_approvals r' = ta_approvals r).
Proof.
  intros H1 E1 H2 E2. eexists _, _.
  split; [by apply tallyApprovals_read with response|].
  split; [by apply tallyApprovals_read with response'|].
  unfold tallyOf. cbn [ta_approvals].
  rewrite validApprovals_snoc, tallyStep_approvalMessage.
  split.
  - intros Hin Hnot. rewrite bool_decide_eq_true_2 by done.
    rewrite size_union, size_singleton; [done|].
    apply disjoint_singleton_l. rewrite validApprovals_elem.
    intros [_ ?]. by apply Hnot.
  - intros [Hout|Hcounted].
    + by rewrite bool_decide_eq_false_2.
    + case_bool_decide as Hin; [|done]. f_equal.
      apply leibniz_equiv. apply subseteq_union_1, singleton_subseteq_l.
      by apply validApprovals_elem.
Qed.

Lemma submitted_approval_counts_once_witness :
  (exists r r',
      tallyApprovals parseJSON
        (fixedLog (Returns (VArr [entry (js "APPROVE:a")])))
        (js "0.0.5005") [js "a"; js "b"] 2 = Returns r
      /\ tallyApprovals parseJSON
           (fixedLog (Returns (VArr ([entry (js "APPROVE:a")]
                                     ++ [entry (approvalMessage (js " b "))]))))
           (js "0.0.5005") [js "a"; js "b"] 2 = Returns r'
      /\ ta_approvals r' = S (ta_approvals r))
  /\ (exists r r',
        tallyApprovals parseJSON
          (fixedLog (Returns (VArr [entry (js "APPROVE:a")])))
          (js "0.0.5005") [js "a"; js "b"] 2 = Returns r
        /\ tallyApprovals parseJSON
             (fixedLog (Returns (VArr ([entry (js "APPROVE:a")]
                                       ++ [entry (approvalMessage (js "z"))]))))
             (js "0.0.5005") [js "a"; js "b"] 2 = Returns r'
        /\ ta_approvals r' = ta_approvals r).
Proof.
  split.
  - destruct (submitted_approval_counts_once parseJSON
                (fixedLog (Returns (VArr [entry (js "APPROVE:a")])))
                (fixedLog (Returns (VArr ([entry (js "APPROVE:a")]
                                          ++ [entry (approvalMessage (js " b "))]))))
                (js "0.0.5005") [js "a"; js "b"] 2
                (VArr [entry (js "APPROVE:a")])
                (VArr ([entry (js "APPROVE:a")]
                       ++ [entry (approvalMessage (js " b "))]))
                [entry (js "APPROVE:a")] (js " b ")
                eq_refl eq_refl eq_refl eq_refl)
      as (r & r' & Hr & Hr' & Hnew & _).
    exists r, r'. split; [exact Hr|]. split; [exact Hr'|].
    apply Hnew.
    + vm_compute. apply list_elem_of_further, list_elem_of_here.
    + intros (m & Hm & rest & Hc & Ht).
      apply list_elem_of_singleton in Hm as ->.
      vm_compute in Hc. injection Hc as <-. vm_compute in Ht. discriminate Ht.
  - destruct (submitted_approval_counts_once parseJSON
                (fixedLog (Returns (VArr [entry (js "APPROVE:a")])))
                (fixedLog (Returns (VArr ([entry (js "APPROVE:a")]
                                          ++ [entry (approvalMessage (js "z"))]))))
                (js "0.0.5005") [js "a"; js "b"] 2
                (VArr [entry (js "APPROVE:a")])
                (VArr ([entry (js "APPROVE:a")]
                       ++ [entry (approvalMessage (js "z"))]))
                [entry (js "APPROVE:a")] (js "z")
                eq_refl eq_refl eq_refl eq_refl)
      as (r & r' & Hr & Hr' & _ & Hsame).
    exists r, r'. split; [exact Hr|]. split; [exact Hr'|].
    apply Hsame. left. vm_compute.
    intros H. apply elem_of_cons in H as [H|H]; [discriminate H|].
    apply list_elem_of_singleton in H. discriminate H.
Defined.

(** ** Records that do not count *)

(** X2. The initial message of [createProposal] is never read as an approval,
    whatever the description holds, and the message of [submitApproval] is
    never read as the proposal record, whatever the account identifier
    holds: the count ignores the former and the search for the description
    passes over the latter. *)
Theorem records_are_not_confused
    (topicId description x : jsstring) (approvers approvers' : list jsstring)
    (threshold threshold' : Z) (before after : list value) :
  ta_approvals (tallyOf topicId approvers' threshold'
                  (before
                   ++ entry (initialMessage description approvers threshold)
                   :: after))
  = ta_approvals (tallyOf topicId approvers' threshold' (before ++ after))
  /\ proposalDetails approvers' threshold'
       (entry (approvalMessage x) :: after)
     = proposalDetails approvers' threshold' after.
Proof.
  split.
  - unfold tallyOf, validApprovals. cbn [ta_approvals].
    rewrite !foldl_app. cbn [foldl]. do 2 f_equal.
  - reflexivity.
Qed.

(** ** Bounds on the count *)

Lemma validApprovals_subseteq_approvers approvers messages :
  validApprovals approvers messages ⊆ list_to_set approvers.
Proof.
  intros x. rewrite validApprovals_elem, elem_of_list_to_set. by intros [? _].
Qed.

Lemma size_list_to_set_le (l : list jsstring) :
  (size (list_to_set l : gset jsstring) ≤ List.length l)%nat.
Proof.
  induction l as [|x l IH].
  - rewrite list_to_set_nil, size_empty. done.
  - rewrite list_to_set_cons, size_union_alt, size_singleton. cbn [List.length].
    assert (Hsub : (list_to_set l : gset jsstring) ∖ {[x]} ⊆ list_to_set l)
      by by apply subseteq_difference_l.
    apply subseteq_size in Hsub. lia.
Qed.

Lemma size_foldl_tallyStep approvers messages acc :
  (size (foldl (tallyStep approvers) acc messages)
   ≤ size acc + List.length messages)%nat.
Proof.
  revert acc. induction messages as [|m messages IH]; intros acc; simpl; [lia|].
  etrans; [apply IH|].
  assert (size (tallyStep approvers acc m) ≤ S (size acc))%nat; [|lia].
  unfold tallyStep. destruct (messageContent m); [|lia].
  destruct (startsWith _ _); [|lia]. case_bool_decide; [|lia].
  rewrite size_union_alt, size_singleton.
  match goal with |- context [size (acc ∖ ?X)] =>
    assert (Hsub : acc ∖ X ⊆ acc) by by apply subseteq_difference_l end.
  apply subseteq_size in Hsub. lia.
Qed.

(** X3. The count never exceeds the number of listed approvers, whatever the
    collaborator returns or throws; so a threshold above that number is
    never met.  It never exceeds the number of log entries either. *)
Theorem approval_count_bounded
    (JSON_parse : jsstring -> option value) (tools : Tools)
    (topicId : jsstring) (approvers : list jsstring) (threshold : Z)
    (r : TallyResult) :
  tallyApprovals JSON_parse tools topicId approvers threshold = Returns r ->
  (ta_approvals r ≤ List.length approvers)%nat
  /\ (Z.of_nat (List.length approvers) < threshold -> ta_isApproved r = false)
  /\ (forall response messages,
        getMessages tools topicId = Returns response ->
        extractMessages JSON_parse response = Returns messages ->
        (ta_approvals r ≤ List.length messages)%nat).
Proof.
  intros Hr.
  assert (Hbound : (ta_approvals r ≤ List.length approvers)%nat).
  { destruct (tallyApprovals_returns _ _ _ _ _ _ Hr)
      as [(response & messages & _ & _ & ->)|(cause & -> & _)];
      cbn [ta_approvals tallyOf]; [|lia].
    etrans; [apply subseteq_size, validApprovals_subseteq_approvers|].
    apply size_list_to_set_le. }
  split; [exact Hbound|]. split.
  - intros Hthr.
    destruct (tallyApprovals_returns _ _ _ _ _ _ Hr)
      as [(response & messages & _ & _ & ->)|(cause & -> & _)]; [|done].
    cbn [ta_approvals ta_isApproved tallyOf] in *.
    apply bool_decide_eq_false. lia.
  - intros response messages Hread Hex.
    rewrite (tallyApprovals_read _ _ _ _ _ _ _ Hread Hex) in Hr.
    injection Hr as <-.
    cbn [ta_approvals tallyOf]. unfold validApprovals.
    pose proof (size_foldl_tallyStep approvers messages ∅) as H.
    rewrite size_empty in H. lia.
Qed.

Lemma approval_count_bounded_witness :
  exists r,
    tallyApprovals parseJSON
      (fixedLog (Returns (VArr [entry (js "APPROVE:a");
                                entry (js "APPROVE:a")])))
      (js "0.0.5005") [js "a"] 2 = Returns r
    /\ ta_isApproved r = false
    /\ (ta_approvals r ≤ 2)%nat.
Proof.
  eexists. split; [reflexivity|].
  destruct (approval_count_bounded parseJSON
              (fixedLog (Returns (VArr [entry (js "APPROVE:a");
                                        entry (js "APPROVE:a")])))
              (js "0.0.5005") [js "a"] 2 _ eq_refl) as (_ & Hthr & Hlen).
  split.
  - apply Hthr. simpl. lia.
  - apply (Hlen (VArr [entry (js "APPROVE:a"); entry (js "APPROVE:a")])
             [entry (js "APPROVE:a"); entry (js "APPROVE:a")]); reflexivity.
Defined.

(** ** Order and repetition *)

(** X4. The count and the verdict depend only on which entries the log holds
    and which identifiers the approvers list holds, not on their order or
    repetition: two reads of logs with the same entries, tallied against
    lists with the same identifiers, agree. *)
Theorem tally_ignores_order_and_repetition
    (JSON_parse : jsstring -> option value) (tools tools' : Tools)
    (topicId topicId' : jsstring) (approvers approvers' : list jsstring)
    (threshold : Z) (response response' : value)
    (messages messages' : list value) :
  getMessages tools topicId = Returns response ->
  extractMessages JSON_parse response = Returns messages ->
  getMessages tools' topicId' = Returns response' ->
  extractMessages JSON_parse response' = Returns messages' ->
  (forall msgObj, msgObj ∈ messages <-> msgObj ∈ messages') ->
  (forall x, x ∈ approvers <-> x ∈ approvers') ->
  exists r r',
    tallyApprovals JSON_parse tools topicId approvers threshold = Returns r
    /\ tallyApprovals JSON_parse tools' topicId' approvers' threshold
       = Returns r'
    /\ ta_approvals r = ta_approvals r'
    /\ ta_isApproved r = ta_isApproved r'.
Proof.
  intros H1 E1 H2 E2 Hmsgs Happr. eexists _, _.
  split; [by apply tallyApprovals_read with response|].
  split; [by apply tallyApprovals_read with response'|].
  unfold tallyOf. cbn [ta_approvals ta_isApproved].
  assert (Heq : validApprovals approvers messages
                = validApprovals approvers' messages').
  { apply set_eq. intros x. rewrite !validApprovals_elem, Happr.
    split; intros [? (m & Hm & ?)]; (split; [done|]); exists m;
      (split; [by apply Hmsgs|done]). }
  by rewrite Heq.
Qed.

Lemma tally_ignores_order_and_repetition_witness :
  exists r r',
    tallyApprovals parseJSON
      (fixedLog (Returns (VArr [entry (js "APPROVE:a");
                                entry (js "APPROVE:b")])))
      (js "0.0.5005") [js "a"; js "b"] 2 = Returns r
    /\ tallyApprovals parseJSON
         (fixedLog (Returns (VArr [entry (js "APPROVE:b");
                                   entry (js "APPROVE:a");
                                   entry (js "APPROVE:b")])))
         (js "0.0.5005") [js "b"; js "a"; js "a"] 2 = Returns r'
    /\ ta_approvals r = ta_approvals r'
    /\ ta_isApproved r = ta_isApproved r'.
Proof.
  apply (tally_ignores_order_and_repetition parseJSON
           (fixedLog (Returns (VArr [entry (js "APPROVE:a");
                                     entry (js "APPROVE:b")])))
           (fixedLog (Returns (VArr [entry (js "APPROVE:b");
                                     entry (js "APPROVE:a");
                                     entry (js "APPROVE:b")])))
           (js "0.0.5005") (js "0.0.5005") [js "a"; js "b"]
           [js "b"; js "a"; js "a"] 2
           (VArr [entry (js "APPROVE:a"); entry (js "APPROVE:b")])
           (VArr [entry (js "APPROVE:b"); entry (js "APPROVE:a");
                  entry (js "APPROVE:b")])
           [entry (js "APPROVE:a"); entry (js "APPROVE:b")]
           [entry (js "APPROVE:b"); entry (js "APPROVE:a");
            entry (js "APPROVE:b")]); try reflexivity.
  - intros m. rewrite !elem_of_cons, !elem_of_nil. tauto.
  - intros x. rewrite !elem_of_cons, !elem_of_nil. tauto.
Defined.

(** ** The report of a pending proposal *)

(** X5. A successful tally that is not approved, for a threshold that is a
    safe integer, reports the count over the threshold and the number of
    approvals still missing, which is the threshold minus the count and at
    least 1. *)
Theorem pending_report_needs_at_least_one
    (JSON_parse : jsstring -> option value) (tools : Tools)
    (topicId : jsstring) (approvers : list jsstring) (threshold : Z)
    (r : TallyResult) :
  safeInteger threshold ->
  tallyApprovals JSON_parse tools topicId approvers threshold = Returns r ->
  ta_status r = js "success" ->
  ta_isApproved r = false ->
  exists needed : Z,
    1 ≤ needed
    /\ needed = threshold - Z.of_nat (ta_approvals r)
    /\ safeInteger needed
    /\ safeInteger (Z.of_nat (ta_approvals r))
    /\ ta_message r
       = js "Current tally: " ++ numberToString (Z.of_nat (ta_approvals r))
         ++ js "/" ++ numberToString threshold ++ js " approvals."
         ++ js " Need " ++ numberToString needed ++ js " more approval(s).".
Proof.
  intros Hsafe Hr.
  destruct (tallyApprovals_returns _ _ _ _ _ _ Hr)
    as [(response & messages & _ & _ & ->)|(cause & -> & _)].
  - intros _. unfold tallyOf. cbn [ta_isApproved ta_approvals ta_message].
    intros Hno. rewrite Hno. apply bool_decide_eq_false in Hno.
    unfold safeInteger in *.
    eexists. split; [|split; [reflexivity|]]; [lia|].
    split; [lia|]. split; [lia|]. reflexivity.
  - intros Hs. by apply symmetry, success_not_error in Hs.
Qed.

Lemma pending_report_needs_at_least_one_witness :
  exists r needed,
    tallyApprovals parseJSON
      (fixedLog (Returns (VArr [entry (js "APPROVE:a")])))
      (js "0.0.5005") [js "a"; js "b"] 2 = Returns r
    /\ needed = 1
    /\ ta_message r
       = js "Current tally: 1/2 approvals. Need 1 more approval(s).".
Proof.
  destruct (pending_report_needs_at_least_one parseJSON
              (fixedLog (Returns (VArr [entry (js "APPROVE:a")])))
              (js "0.0.5005") [js "a"; js "b"] 2 _
              ltac:(unfold safeInteger; simpl; lia) eq_refl eq_refl eq_refl)
    as (needed & _ & Hneeded & _ & _ & Hmsg).
  eexists _, needed. split; [reflexivity|].
  split; [rewrite Hneeded; reflexivity|].
  rewrite Hmsg, Hneeded. reflexivity.
Defined.

(** ** When the tally fails *)

(** X6. [tallyApprovals] has three outcomes.  It rejects exactly when the
    read throws [null] or [undefined].  It returns an error result exactly
    when the read throws another value, whose message is then reported after
    the fixed prefix, or returns a string that is not JSON.  Every other
    response, whatever its shape, gives a success. *)
Theorem tally_fails_only_on_unreadable_response
    (JSON_parse : jsstring -> option value) (tools : Tools)
    (topicId : jsstring) (approvers : list jsstring) (threshold : Z) :
  ((exists e,
       tallyApprovals JSON_parse tools topicId approvers threshold = Throws e)
   <-> exists e, getMessages tools topicId = Throws e /\ nullish e)
  /\ (forall r,
        tallyApprovals JSON_parse tools topicId approvers threshold
        = Returns r ->
        ta_status r = js "error"
        <-> (exists cause,
                getMessages tools topicId = Throws (ThrownError cause))
            \/ (exists text, getMessages tools topicId = Returns (VStr text)
                             /\ JSON_parse text = None))
  /\ (forall cause,
        getMessages tools topicId = Throws (ThrownError cause) ->
        exists r,
          tallyApprovals JSON_parse tools topicId approvers threshold
          = Returns r
          /\ ta_status r = js "error"
          /\ ta_message r = js "Failed to tally approvals: " ++ cause)
  /\ (forall text,
        getMessages tools topicId = Returns (VStr text) ->
        JSON_parse text = None ->
        exists r,
          tallyApprovals JSON_parse tools topicId approvers threshold
          = Returns r
          /\ ta_status r = js "error"
          /\ ta_message r
             = js "Failed to tally approvals: get_topic_messages_query_tool returned an unparsable string.")
  /\ (forall response,
        getMessages tools topicId = Returns response ->
        (forall text, response = VStr text -> JSON_parse text <> None) ->
        exists r,
          tallyApprovals JSON_parse tools topicId approvers threshold
          = Returns r
          /\ ta_status r = js "success").
Proof.
  unfold tallyApprovals.
  destruct (getMessages tools topicId) as [response|e0] eqn:Hread;
    cbn [mbind outcome_bind].
  - assert (Hcases :
      (exists messages, extractMessages JSON_parse response = Returns messages
                        /\ forall text, response = VStr text ->
                                        JSON_parse text <> None)
      \/ (exists text, response = VStr text /\ JSON_parse text = None
            /\ extractMessages JSON_parse response
               = throwError (js "get_topic_messages_query_tool returned an unparsable string."))).
    { unfold extractMessages.
      destruct response; try (left; eexists; split; [reflexivity|done]).
      destruct (JSON_parse s) eqn:Hp.
      - left. eexists. split; [reflexivity|]. intros text [= <-]. by rewrite Hp.
      - right. by exists s. }
    destruct Hcases as [(messages & -> & Hok)|(text & -> & Hp & ->)];
      cbn [messageOf throwError mbind outcome_bind].
    + split; [|split; [|split; [|split]]].
      * split; [by intros [e [=]] | by intros (e & [=] & _)].
      * intros r [= <-]. split.
        -- intros Hs. by apply success_not_error in Hs.
        -- intros [[cause [=]]|(text & [= ->] & Hp)].
           by destruct (Hok text eq_refl).
      * intros cause [=].
      * intros text [= ->] Hp. by destruct (Hok text eq_refl).
      * intros response' _ _. by eexists.
    + split; [|split; [|split; [|split]]].
      * split; [by intros [e [=]] | by intros (e & [=] & _)].
      * intros r [= <-]. split; [|done]. intros _. right. by exists text.
      * intros cause [=].
      * intros text' _ _. by eexists.
      * intros response' [= <-] Hok. by destruct (Hok text eq_refl).
  - destruct e0 as [| |cause]; cbn [messageOf throwError mbind outcome_bind].
    + split; [|split; [|split; [|split]]]; try done.
      split; [|by eauto]. intros _. exists ThrownNull. split; [done|by left].
    + split; [|split; [|split; [|split]]]; try done.
      split; [|by eauto]. intros _. exists ThrownUndefined.
      split; [done|by right].
    + split; [|split; [|split; [|split]]]; try done.
      * split; [by intros [e [=]]|].
        intros (e & [= <-] & [H|H]); discriminate H.
      * intros r [= <-]. split; [|done]. intros _. left. by exists cause.
      * intros cause' [= ->]. by eexists.
Qed.

Lemma tally_fails_only_on_unreadable_response_witness :
  (exists r,
      tallyApprovals parseJSON (fixedLog (Returns (VStr (js "<html>"))))
        (js "0.0.5005") [js "a"] 1 = Returns r
      /\ ta_status r = js "error")
  /\ (exists r,
        tallyApprovals parseJSON brokenLog (js "0.0.5005") [js "a"] 1
        = Returns r
        /\ ta_status r = js "error"
        /\ ta_message r = js "Failed to tally approvals: " ++ js "network down")
  /\ (exists e,
        tallyApprovals parseJSON nullThrower (js "0.0.5005") [js "a"] 1
        = Throws e).
Proof.
  split; [|split].
  - destruct (tally_fails_only_on_unreadable_response parseJSON
                (fixedLog (Returns (VStr (js "<html>"))))
                (js "0.0.5005") [js "a"] 1) as (_ & _ & _ & Htext & _).
    destruct (Htext (js "<html>") eq_refl eq_refl) as (r & Hr & Hs & _).
    by exists r.
  - destruct (tally_fails_only_on_unreadable_response parseJSON brokenLog
                (js "0.0.5005") [js "a"] 1) as (_ & _ & Hthrown & _).
    apply Hthrown. reflexivity.
  - destruct (tally_fails_only_on_unreadable_response parseJSON nullThrower
                (js "0.0.5005") [js "a"] 1) as ([_ Hrej] & _).
    apply Hrej. exists ThrownNull. split; [reflexivity | by left].
Defined.

(** ** Outcomes of [createProposal] *)

Lemma extractTopicId_nonempty JSON_parse response id :
  extractTopicId JSON_parse response = Returns id -> id <> [].
Proof.
  unfold extractTopicId. intros Hex.
  destruct (isUndefined response); [discriminate Hex|].
  cbn [mbind outcome_bind] in Hex.
  match type of Hex with (mbind _ ?o) = _ =>
    destruct o as [parsed|]; [|discriminate Hex] end.
  cbn [mbind outcome_bind] in Hex.
  destruct (topicIdOf parsed) as [[[|c t]|]|]; try discriminate Hex.
  by injection Hex as <-.
Qed.

(** X7. [createProposal] returns a topic identifier exactly when the topic was
    created, an identifier was extracted from the response and the initial
    message was accepted for it; the identifier is then non-empty and quoted
    in the success message.  When the topic exists but appending the initial
    message fails, the result is the error result, without the identifier. *)
Theorem createProposal_outcomes
    (JSON_parse : jsstring -> option value) (tools : Tools)
    (proposalDescription : jsstring) (approvers : list jsstring)
    (threshold : Z) :
  let memo := js "Approvr Proposal: " ++ substring_to 50 proposalDescription
              ++ js "..." in
  let first := initialMessage proposalDescription approvers threshold in
  (forall id,
      (exists r,
          createProposal JSON_parse tools proposalDescription approvers
            threshold = Returns r
          /\ cp_topicId r = Some id)
      <-> exists response v,
            createTopic tools memo = Returns response
            /\ identifies JSON_parse response id
            /\ submitMessage tools (VStr id) first = Returns v)
  /\ (forall r id,
        createProposal JSON_parse tools proposalDescription approvers
          threshold = Returns r ->
        cp_topicId r = Some id ->
        id <> [] /\ cp_status r = js "success"
        /\ cp_message r = js "Proposal created. Share this Topic ID: " ++ id)
  /\ (forall response id cause,
        createTopic tools memo = Returns response ->
        identifies JSON_parse response id ->
        submitMessage tools (VStr id) first = throwError cause ->
        createProposal JSON_parse tools proposalDescription approvers
          threshold
        = Returns {| cp_topicId := None; cp_status := js "error";
                     cp_message := js "Failed to create proposal: "
                                   ++ cause |}).
Proof.
  intros memo first. subst memo first.
  unfold createProposal, identifies.
  destruct (createTopic tools _) as [response|e0]; cbn [mbind outcome_bind].
  - destruct (extractTopicId JSON_parse response) as [id0|e1] eqn:Hex;
      cbn [mbind outcome_bind].
    + pose proof (extractTopicId_nonempty _ _ _ Hex) as Hne.
      destruct (submitMessage tools (VStr id0) _) as [v|e2] eqn:Hsub;
        cbn [mbind outcome_bind].
      * split; [|split].
        -- intros id. split.
           ++ intros (r & [= <-] & [= <-]). by exists response, v.
           ++ intros (response' & v' & Hr & He & _).
              injection Hr as <-. rewrite Hex in He. injection He as <-.
              by eexists.
        -- by intros r id [= <-] [= <-].
        -- intros response' id cause Hr He Hs.
           injection Hr as <-. rewrite Hex in He. injection He as <-.
           rewrite Hsub in Hs. discriminate Hs.
      * split; [|split].
        -- intros id. split.
           ++ intros (r & Hr & Hid).
              destruct e2; cbn [messageOf throwError mbind outcome_bind] in Hr;
                try discriminate Hr.
              injection Hr as <-. discriminate Hid.
           ++ intros (response' & v' & Hr & He & Hs).
              injection Hr as <-. rewrite Hex in He. injection He as <-.
              rewrite Hsub in Hs. discriminate Hs.
        -- intros r id Hr Hid.
           destruct e2; cbn [messageOf throwError mbind outcome_bind] in Hr;
             try discriminate Hr.
           injection Hr as <-. discriminate Hid.
        -- intros response' id cause Hr He Hs.
           injection Hr as <-. rewrite Hex in He. injection He as <-.
           rewrite Hsub in Hs. by injection Hs as ->.
    + destruct (extractTopicId_throws _ _ _ Hex) as [m ->].
      cbn [messageOf mbind outcome_bind].
      split; [|split].
      * intros id. split; [by intros (r & [= <-] & [=])|].
        intros (response' & v' & Hr & He & _).
        injection Hr as <-. rewrite Hex in He. discriminate He.
      * by intros r id [= <-] [=].
      * intros response' id cause Hr He.
        injection Hr as <-. rewrite Hex in He. discriminate He.
  - split; [|split].
    + intros id. split; [|by intros (? & ? & [=] & _)].
      intros (r & Hr & Hid).
      destruct e0; cbn [messageOf throwError mbind outcome_bind] in Hr;
        try discriminate Hr.
      injection Hr as <-. discriminate Hid.
    + intros r id Hr Hid.
      destruct e0; cbn [messageOf throwError mbind outcome_bind] in Hr;
        try discriminate Hr.
      injection Hr as <-. discriminate Hid.
    + by intros ? ? ? [=].
Qed.

Lemma createProposal_outcomes_witness :
  (exists r,
      createProposal parseJSON (fixedLog (Returns (VArr [])))
        (js "Buy gear") [js "a"] 1 = Returns r
      /\ cp_status r = js "success"
      /\ cp_message r = js "Proposal created. Share this Topic ID: 0.0.5005")
  /\ createProposal parseJSON refusingLog (js "Buy gear") [js "a"] 1
     = Returns {| cp_topicId := None; cp_status := js "error";
                  cp_message := js "Failed to create proposal: "
                                ++ js "topic deleted" |}.
Proof.
  split.
  - destruct (createProposal_outcomes parseJSON (fixedLog (Returns (VArr [])))
                (js "Buy gear") [js "a"] 1) as (_ & Hfields & _).
    destruct (Hfields _ (js "0.0.5005") eq_refl eq_refl) as (_ & Hs & Hm).
    eexists. split; [reflexivity|]. split; [exact Hs | exact Hm].
  - destruct (createProposal_outcomes parseJSON refusingLog
                (js "Buy gear") [js "a"] 1) as (_ & _ & Hpartial).
    apply (Hpartial (plainObject [(js "topicId", VStr (js "0.0.5005"))])
             (js "0.0.5005") (js "topic deleted")); reflexivity.
Defined.

(** ** What the identifier normalizer returns *)

Lemma convertedId_inv rendering id :
  convertedId rendering = Some id ->
  rendering = Returns id /\ id <> [] /\ includesChar 46 id = true.
Proof.
  unfold convertedId. destruct rendering as [p|]; [|done].
  case_bool_decide as Hne; cbn [negb andb]; [done|].
  destruct (includesChar 46 p) eqn:Hdot; [|done].
  by intros [= <-].
Qed.

Lemma convertOrWarn_inv rendering topicId :
  convertOrWarn rendering = Returns topicId ->
  topicId = convertedId rendering.
Proof.
  unfold convertOrWarn. destruct rendering as [p|e]; [by intros [= <-]|].
  destruct (messageOf e); cbn [mbind outcome_bind]; [|done].
  by intros [= <-].
Qed.

Lemma stringOf_inv v s : stringOf v = Some s -> v = VStr s.
Proof. destruct v; try done. by intros [= <-]. Qed.

Lemma topicIdOf_not_object parsed :
  (forall fields toStr, parsed <> VObj fields toStr) ->
  topicIdOf parsed = Returns None.
Proof.
  intros Hno. unfold topicIdOf.
  destruct parsed as [| | | | |items|fields toStr]; try reflexivity.
  - cbn [typeof]. by rewrite bool_decide_eq_false_2, andb_false_r.
  - cbn [typeof]. by rewrite bool_decide_eq_false_2, andb_false_r.
  - cbn [typeof]. by rewrite bool_decide_eq_false_2, andb_false_r.
  - by destruct (Hno fields toStr).
Qed.

Lemma topicIdOf_source parsed id :
  topicIdOf parsed = Returns (Some id) ->
  (exists fields toStr, parsed = VObj fields toStr)
  /\ identifierSource parsed id.
Proof.
  intros H.
  assert (Hobj : exists fields toStr, parsed = VObj fields toStr).
  { destruct parsed as [| | | | | |fields toStr]; [..|by eauto];
      rewrite topicIdOf_not_object in H by done; discriminate H. }
  split; [done|]. destruct Hobj as (fields & toStr & ->).
  unfold identifierSource. cbv zeta.
  destruct (decide (typeof (get (get (VObj fields toStr) (js "receipt"))
                              (js "topicId")) = TString)) as [Hty|Hty].
  - destruct (get (get (VObj fields toStr) (js "receipt")) (js "topicId"))
      as [| | | |s| |] eqn:Hrid; try done.
    rewrite (topicIdOf_priority1 fields toStr s Hrid) in H.
    injection H as <-. by left.
  - rewrite (topicIdOf_skip1 fields toStr Hty) in H.
    case_bool_decide as Htop.
    { injection H as H. apply stringOf_inv in H. right. by left. }
    destruct (identifierObject (get (VObj fields toStr) (js "topicId")))
      eqn:Hobj.
    { apply convertOrWarn_inv in H. symmetry in H.
      apply convertedId_inv in H as (Hr & _ & Hdot). right. right. by left. }
    destruct (identifierObject
                (get (get (VObj fields toStr) (js "receipt")) (js "topicId")))
      eqn:Hobj'; [|discriminate H].
    apply convertOrWarn_inv in H. symmetry in H.
    apply convertedId_inv in H as (Hr & _ & Hdot). right. right. by right.
Qed.

(** X8. The normalizer never invents an identifier.  What it returns is
    non-empty, comes from an object response or from a string response that
    is the JSON text of an object, and is there the string under [receipt],
    the string on the top level, or the dotted rendering of an identifier
    object in one of the two places. *)
Theorem extracted_identifier_comes_from_response
    (JSON_parse : jsstring -> option value) (response : value)
    (id : jsstring) :
  identifies JSON_parse response id ->
  id <> []
  /\ exists fields toStr,
      (response = VObj fields toStr
       \/ exists text, response = VStr text
                       /\ JSON_parse text = Some (VObj fields toStr))
      /\ identifierSource (VObj fields toStr) id.
Proof.
  unfold identifies, extractTopicId. intros H.
  destruct (isUndefined response); [discriminate H|].
  cbn [mbind outcome_bind] in H.
  assert (Hparsed : exists parsed,
            topicIdOf parsed = Returns (Some id) /\ id <> []
            /\ (response = parsed
                \/ exists text, response = VStr text
                                /\ JSON_parse text = Some parsed)).
  { destruct response as [| | | |text|items|fields toStr];
      cbn [typeof isNull negb andb] in H;
      try (rewrite ?bool_decide_eq_false_2 in H by done; discriminate H).
    - destruct (JSON_parse text) as [parsed|] eqn:Hp; [|discriminate H].
      cbn [mbind outcome_bind] in H. exists parsed.
      destruct (topicIdOf parsed) as [[[|c t]|]|]; try discriminate H.
      injection H as <-. split; [done|]. split; [done|]. right. by exists text.
    - rewrite bool_decide_eq_true_2 in H by done.
      cbn [mbind outcome_bind andb] in H. exists (VObj fields toStr).
      destruct (topicIdOf (VObj fields toStr)) as [[[|c t]|]|];
        try discriminate H.
      injection H as <-. split; [done|]. split; [done|]. by left. }
  destruct Hparsed as (parsed & Hid & Hne & Hfrom).
  destruct (topicIdOf_source parsed id Hid) as [(fields & toStr & ->) Hsrc].
  split; [done|]. exists fields, toStr. split; [|done].
  destruct Hfrom as [->|(text & -> & Hp)]; [by left|right; by exists text].
Qed.

Lemma extracted_identifier_comes_from_response_witness :
  js "0.0.5005" <> []
  /\ exists fields toStr,
      (VStr wrappedTopicText = VObj fields toStr
       \/ exists text, VStr wrappedTopicText = VStr text
                       /\ parseJSON text = Some (VObj fields toStr))
      /\ identifierSource (VObj fields toStr) (js "0.0.5005").
Proof.
  apply (extracted_identifier_comes_from_response parseJSON
           (VStr wrappedTopicText) (js "0.0.5005")).
  vm_compute. reflexivity.
Defined.

(** X9. An identifier object on the top level decides alone: when no string
    identifier is present and the top-level identifier is an object with a
    [toString], the response is identified exactly by that object's
    non-empty dotted rendering.  When the rendering is anything else, or
    [toString] throws a value other than [null] and [undefined], the
    response is rejected with the fixed error whatever lies under [receipt].
    When [toString] throws [null] or [undefined], reading the message of the
    caught value fails and that [TypeError] is the error of the extraction.
    In no case is the identifier under [receipt] consulted. *)
Theorem top_level_identifier_object_decides
    (JSON_parse : jsstring -> option value)
    (fields : list (jsstring * value)) (toStr : option (outcome jsstring)) :
  let response := VObj fields toStr in
  let topId := get response (js "topicId") in
  let receiptId := get (get response (js "receipt")) (js "topicId") in
  typeof receiptId <> TString ->
  typeof topId <> TString ->
  identifierObject topId = true ->
  (forall id,
      identifies JSON_parse response id
      <-> callToString topId = Returns id /\ id <> []
          /\ includesChar 46 id = true)
  /\ ((forall id, callToString topId = Returns id ->
                  id = [] \/ includesChar 46 id = false) ->
      (forall e, callToString topId = Throws e -> ~ nullish e) ->
      extractTopicId JSON_parse response
      = throwError (js "Failed to extract Topic ID string from createTopic response. Response type was object. Check logs above."))
  /\ (callToString topId = Throws ThrownNull ->
      extractTopicId JSON_parse response
      = throwError (js "Cannot read properties of null (reading 'message')"))
  /\ (callToString topId = Throws ThrownUndefined ->
      extractTopicId JSON_parse response
      = throwError (js "Cannot read properties of undefined (reading 'message')")).
Proof.
  intros response topId receiptId H1 H2 H3. subst response topId receiptId.
  assert (Hchain : topicIdOf (VObj fields toStr)
                   = convertOrWarn (callToString
                                      (get (VObj fields toStr) (js "topicId")))).
  { by rewrite (topicIdOf_skip1 fields toStr H1),
      (bool_decide_eq_false_2 _ H2), H3. }
  split; [|split; [|split]].
  - intros id. unfold identifies. rewrite extractTopicId_object, Hchain. split.
    + destruct (convertOrWarn _) as [[[|c t]|]|] eqn:Hc; try done.
      cbn [mbind outcome_bind]. intros [= <-].
      apply convertOrWarn_inv in Hc. symmetry in Hc.
      by apply convertedId_inv in Hc.
    + intros (-> & Hne & Hdot).
      rewrite convertOrWarn_returns, (convertedId_returns id Hne Hdot).
      cbn [mbind outcome_bind]. by destruct id.
  - intros Hbad Hthrow. rewrite extractTopicId_object, Hchain.
    destruct (callToString _) as [p|e] eqn:Hcall.
    + rewrite convertOrWarn_returns. cbn [mbind outcome_bind].
      destruct (convertedId (Returns p)) as [[|c t]|] eqn:Hc; try reflexivity.
      apply convertedId_inv in Hc as (Hr & Hne & Hdot).
      injection Hr as ->.
      destruct (Hbad _ eq_refl) as [?|Hno]; [done|]. by rewrite Hno in Hdot.
    + destruct (messageOf_not_nullish e (Hthrow e eq_refl)) as [m ->].
      reflexivity.
  - intros Hcall. by rewrite extractTopicId_object, Hchain, Hcall.
  - intros Hcall. by rewrite extractTopicId_object, Hchain, Hcall.
Qed.

Lemma top_level_identifier_object_decides_witness :
  extractTopicId parseJSON
    (plainObject [(js "topicId", VObj [] (Some (throwError (js "not ready"))));
                  (js "receipt",
                   plainObject [(js "topicId", sdkObject (js "0.0.5005"))])])
  = throwError (js "Failed to extract Topic ID string from createTopic response. Response type was object. Check logs above.")
  /\ extractTopicId parseJSON
       (plainObject [(js "topicId", VObj [] (Some (Throws ThrownNull)));
                     (js "receipt",
                      plainObject [(js "topicId", sdkObject (js "0.0.5005"))])])
     = throwError (js "Cannot read properties of null (reading 'message')").
Proof.
  split.
  - destruct (top_level_identifier_object_decides parseJSON
                [(js "topicId", VObj [] (Some (throwError (js "not ready"))));
                 (js "receipt",
                  plainObject [(js "topicId", sdkObject (js "0.0.5005"))])]
                (Some (Returns (js "[object Object]"))))
      as (_ & Hreject & _); [discriminate | discriminate | reflexivity |].
    apply Hreject.
    + intros id H. discriminate H.
    + intros e [= <-] [H|H]; discriminate H.
  - destruct (top_level_identifier_object_decides parseJSON
                [(js "topicId", VObj [] (Some (Throws ThrownNull)));
                 (js "receipt",
                  plainObject [(js "topicId", sdkObject (js "0.0.5005"))])]
                (Some (Returns (js "[object Object]"))))
      as (_ & _ & Hnull & _); [discriminate | discriminate | reflexivity |].
    apply Hnull. reflexivity.
Defined.

(** ** What a decoded description looks like *)

Lemma trimStart_idemp s : trimStart (trimStart s) = trimStart s.
Proof.
  induction s as [|c s IH]; [done|]. simpl.
  destruct (isWhiteSpace c) eqn:Hw; [done|]. simpl. by rewrite Hw.
Qed.

(** [trimStart] drops a prefix of white space. *)
Lemma trimStart_split s :
  exists w, s = w ++ trimStart s /\ Forall (fun c => isWhiteSpace c = true) w.
Proof.
  induction s as [|c s (w & Hs & Hw)]; [by exists []|]. simpl.
  destruct (isWhiteSpace c) eqn:Hc; [|by exists []].
  exists (c :: w). split; [simpl; by f_equal | by constructor].
Qed.

Lemma trimEnd_split s :
  exists w, s = trimEnd s ++ w /\ Forall (fun c => isWhiteSpace c = true) w.
Proof.
  destruct (trimStart_split (rev s)) as (w & Hs & Hw).
  exists (rev w). split.
  - unfold trimEnd. rewrite <- rev_app_distr, <- Hs. by rewrite rev_involutive.
  - apply Forall_forall. intros c Hc. rewrite Forall_forall in Hw.
    apply Hw. by apply list_elem_of_In, in_rev, list_elem_of_In.
Qed.

Lemma trimEnd_idemp s : trimEnd (trimEnd s) = trimEnd s.
Proof. unfold trimEnd. by rewrite rev_involutive, trimStart_idemp. Qed.

Lemma trimStart_trimEnd s :
  trimStart s = s -> trimStart (trimEnd s) = trimEnd s.
Proof.
  intros Hs. destruct (trimEnd_split s) as (w & Heq & Hw).
  destruct (trimEnd s) as [|c t] eqn:Ht; [done|]. simpl.
  destruct (isWhiteSpace c) eqn:Hc; [|done].
  rewrite Heq in Hs. simpl in Hs. rewrite Hc in Hs.
  destruct (trimStart_split (t ++ w)) as (w' & Hsplit & _).
  apply (f_equal List.length) in Hs. apply (f_equal List.length) in Hsplit.
  rewrite !length_app in Hsplit. simpl in Hs. rewrite !length_app in Hs. lia.
Qed.

Lemma trim_idemp s : trim (trim s) = trim s.
Proof.
  unfold trim.
  rewrite (trimStart_trimEnd (trimStart s) (trimStart_idemp s)).
  apply trimEnd_idemp.
Qed.

Lemma singleLine_trimStart s : singleLine s -> singleLine (trimStart s).
Proof.
  unfold singleLine. intros H. destruct (trimStart_split s) as (w & Hs & _).
  rewrite Hs in H. by apply Forall_app in H as [_ ?].
Qed.

Lemma singleLine_rev s : singleLine s -> singleLine (rev s).
Proof.
  unfold singleLine. rewrite !Forall_forall. intros H c Hc.
  apply H. by apply list_elem_of_In, in_rev, list_elem_of_In.
Qed.

Lemma singleLine_trim s : singleLine s -> singleLine (trim s).
Proof.
  intros H. unfold trim, trimEnd.
  by apply singleLine_rev, singleLine_trimStart, singleLine_rev,
    singleLine_trimStart.
Qed.

Lemma matchDotPlusEnd_inv s g :
  matchDotPlusEnd s = Some g -> g = s /\ g <> [] /\ singleLine g.
Proof.
  unfold matchDotPlusEnd. destruct s as [|c s]; [done|].
  destruct (forallb _ (c :: s)) eqn:Hall; [|done]. intros [= <-].
  split; [done|]. split; [done|].
  apply Forall_forall. intros a Ha.
  rewrite forallb_forall in Hall.
  specialize (Hall a ltac:(by apply list_elem_of_In)).
  by destruct (isLineTerminator a).
Qed.

Lemma matchSpacesDotPlusEnd_singleLine_group s g :
  matchSpacesDotPlusEnd s = Some g -> singleLine g.
Proof.
  induction s as [|c s IH]; cbn [matchSpacesDotPlusEnd]; [done|].
  destruct (isWhiteSpace c).
  - destruct (matchSpacesDotPlusEnd s) as [g'|].
    + intros [= <-]. by apply IH.
    + intros H. by apply matchDotPlusEnd_inv in H as (_ & _ & ?).
  - intros H. by apply matchDotPlusEnd_inv in H as (_ & _ & ?).
Qed.

(** X10. Whatever the text of the proposal message, the description read from it
    is a single line without leading or trailing white space: trimming it
    again changes nothing and it holds no line terminator. *)
Theorem decoded_description_is_trimmed_line (content : jsstring) :
  trim (decodeDescription content) = decodeDescription content
  /\ singleLine (decodeDescription content).
Proof.
  assert (Hplace : trim descriptionPlaceholder = descriptionPlaceholder
                   /\ singleLine descriptionPlaceholder).
  { split; [by vm_compute|]. unfold singleLine. apply Forall_forall.
    intros c Hc. apply list_elem_of_In in Hc. vm_compute in Hc.
    repeat (destruct Hc as [<-|Hc]; [reflexivity|]). done. }
  unfold decodeDescription.
  destruct (split 10 content) as [|descLine lines]; [done|].
  destruct (descMatch descLine) as [g|] eqn:Hm; [|done].
  case_bool_decide; [done|].
  split; [apply trim_idemp|]. apply singleLine_trim.
  unfold descMatch in Hm. destruct (startsWith _ _); [|done].
  by apply matchSpacesDotPlusEnd_singleLine_group in Hm.
Qed.

(** ** Decoding the initial message of any description *)

Lemma initialMessage_first_line description approvers threshold :
  split 10 (initialMessage description approvers threshold)
  = (js "Proposal: " ++ hd [] (split 10 description))
    :: tail (split 10 (initialMessage description approvers threshold)).
Proof.
  pose proof (split_nonempty 10 (initialMessage description approvers threshold))
    as Hne.
  assert (Hhd : hd [] (split 10 (initialMessage description approvers threshold))
                = js "Proposal: " ++ hd [] (split 10 description)).
  { unfold initialMessage, nl.
    rewrite hd_split_app_prefix by (repeat constructor; discriminate).
    f_equal. change ([10%N] ++ ?x) with (10%N :: x).
    apply hd_split_app_newline. }
  destruct (split 10 (initialMessage description approvers threshold));
    [done|]. simpl in *. by rewrite Hhd.
Qed.

Lemma matchSpacesDotPlusEnd_terminator s :
  Exists (fun c => isLineTerminator c = true) (trimStart s) ->
  matchSpacesDotPlusEnd s = None.
Proof.
  assert (Hdot : forall t, Exists (fun c => isLineTerminator c = true) t ->
                           matchDotPlusEnd t = None).
  { intros t Ht. unfold matchDotPlusEnd. destruct t as [|c t]; [done|].
    destruct (forallb _ (c :: t)) eqn:Hall; [|done].
    rewrite forallb_forall in Hall. apply Exists_exists in Ht as (a & Ha & Hlt).
    specialize (Hall a ltac:(by apply list_elem_of_In)).
    by rewrite Hlt in Hall. }
  induction s as [|c s IH]; cbn [matchSpacesDotPlusEnd trimStart].
  - intros H. by apply Exists_nil in H.
  - destruct (isWhiteSpace c) eqn:Hw.
    + intros H. rewrite (IH H). apply Hdot.
      destruct (trimStart_split s) as (w & Hs & _).
      rewrite Hs. apply Exists_cons_tl, Exists_app. by right.
    + apply Hdot.
Qed.

(** X11. The description read back from the initial message of [createProposal]
    is exactly the first line of the original, trimmed, when that line holds
    no CR, LS or PS; it is the placeholder when such a character follows the
    first visible character of the line, as with a CR LF line ending. *)
Theorem description_decodes_to_first_line
    (description : jsstring) (approvers : list jsstring) (threshold : Z) :
  let first := hd [] (split 10 description) in
  let decoded :=
    decodeDescription (initialMessage description approvers threshold) in
  (singleLine first -> decoded = trim first)
  /\ (Exists (fun c => isLineTerminator c = true) (trimStart first) ->
      decoded = descriptionPlaceholder).
Proof.
  intros first decoded. subst first decoded. unfold decodeDescription.
  rewrite initialMessage_first_line.
  assert (Hmatch : descMatch (js "Proposal: " ++ hd [] (split 10 description))
                   = matchSpacesDotPlusEnd
                       (32%N :: hd [] (split 10 description))) by reflexivity.
  rewrite Hmatch. split.
  - intros Hs.
    destruct (matchSpacesDotPlusEnd_singleLine
                (32%N :: hd [] (split 10 description)))
      as (g & -> & Hg & Htrim); [done | by constructor |].
    rewrite bool_decide_eq_false_2 by done.
    rewrite Htrim. by apply trim_cons_space.
  - intros Hlt. by rewrite matchSpacesDotPlusEnd_terminator.
Qed.

Lemma description_decodes_to_first_line_witness :
  decodeDescription
    (initialMessage (js "  Buy gear " ++ nl ++ js "by Friday") [js "a"] 1)
  = trim (js "  Buy gear ")
  /\ decodeDescription
       (initialMessage (js "Buy gear" ++ [13%N] ++ nl ++ js "by Friday")
          [js "a"] 1)
     = descriptionPlaceholder.
Proof.
  split.
  - destruct (description_decodes_to_first_line
                (js "  Buy gear " ++ nl ++ js "by Friday") [js "a"] 1)
      as [Hline _].
    apply Hline. unfold singleLine. vm_compute. repeat constructor.
  - destruct (description_decodes_to_first_line
                (js "Buy gear" ++ [13%N] ++ nl ++ js "by Friday") [js "a"] 1)
      as [_ Hcr].
    apply Hcr. vm_compute. do 8 apply Exists_cons_tl. by apply Exists_cons_hd.
Defined.


(** * The bot commands and the approval endpoint *)

(** ** Arguments handed to the core *)

Lemma Forall_trimStart (P : N -> Prop) s : Forall P s -> Forall P (trimStart s).
Proof.
  intros H. destruct (trimStart_split s) as (w & Hs & _).
  rewrite Hs in H. by apply Forall_app in H as [_ ?].
Qed.

Lemma Forall_trim (P : N -> Prop) s : Forall P s -> Forall P (trim s).
Proof.
  intros H. unfold trim, trimEnd.
  apply Forall_rev, Forall_trimStart, Forall_rev. by apply Forall_trimStart.
Qed.

Lemma split_segments_without_separator sep s :
  Forall (Forall (fun c => c <> sep)) (split sep s).
Proof.
  induction s as [|c s IH]; simpl; [by repeat constructor|].
  destruct (N.eqb_spec c sep) as [->|Hc]; [by constructor|].
  destruct (split sep s) as [|seg segs]; [by repeat constructor|].
  apply Forall_cons_1 in IH as [Hseg Hsegs]. by repeat constructor.
Qed.

(** An identifier as the handlers pass it on: non-empty, without
    surrounding white space, without a comma. *)
Lemma parseApprovers_elem text :
  Forall (fun x => x <> [] /\ trim x = x /\ Forall (fun c => c <> 44%N) x)
         (parseApprovers text).
Proof.
  unfold parseApprovers. apply Forall_forall. intros x Hx.
  apply list_elem_of_filter in Hx as [Hne Hx].
  apply list_elem_of_fmap in Hx as (y & -> & Hy).
  split; [done|]. split; [apply trim_idemp|].
  apply Forall_trim.
  pose proof (split_segments_without_separator 44 text) as Hall.
  rewrite Forall_forall in Hall. by apply Hall.
Qed.

Lemma parseCommandArgs_accepted command usage invalidFormat invalidThreshold
    text first approvers threshold :
  parseCommandArgs command usage invalidFormat invalidThreshold text
  = Accepted first approvers threshold ->
  1 ≤ threshold ≤ Z.of_nat (List.length approvers)
  /\ trim first = first
  /\ Forall (fun x => x <> [] /\ trim x = x /\ Forall (fun c => c <> 44%N) x)
            approvers.
Proof.
  unfold parseCommandArgs. case_bool_decide; [done|].
  destruct (splitOn _ _) as [|p0 [|p1 [|p2 [|? ?]]]]; try done.
  destruct (parseInt10 (trim p2)) as [t|]; [|done].
  case_bool_decide as Hlow; [done|]. case_bool_decide as Hhigh; [done|].
  cbn [orb]. intros [= <- <- <-].
  split; [lia|]. split; [apply trim_idemp|apply parseApprovers_elem].
Qed.

Lemma tally_message_nonempty JSON_parse tools topicId approvers threshold r :
  tallyApprovals JSON_parse tools topicId approvers threshold = Returns r ->
  ta_message r <> [].
Proof.
  intros Hr.
  destruct (tallyApprovals_returns _ _ _ _ _ _ Hr)
    as [(response & messages & _ & _ & ->)|(cause & -> & _)]; [|done].
  unfold tallyOf. cbn [ta_message]. destruct (bool_decide _); [|done].
  unfold approvedReport.
  by destruct (proposalDetails approvers threshold messages) as [[? ?] ?].
Qed.

Lemma createProposal_message_nonempty JSON_parse tools description approvers
    threshold r :
  createProposal JSON_parse tools description approvers threshold = Returns r ->
  cp_message r <> [].
Proof.
  intros Hr.
  destruct (createProposal_returns_or_rejects JSON_parse tools description
              approvers threshold) as (Hret & _).
  unfold createProposal in Hr.
  match type of Hr with
  | match ?o with Returns _ => _ | Throws _ => _ end = _ =>
      destruct o as [tid|[| |cause]]
  end; cbn [messageOf throwError mbind outcome_bind] in Hr;
    try discriminate Hr; by injection Hr as <-.
Qed.

(** X12. [/create] and [/tally] either answer one of their three refusals
    without calling the core, or call it with a threshold between 1 and the
    number of approvers, a trimmed first argument and approvers that are
    non-empty, trimmed and free of commas.  When the core returns a result
    the reply is the message of that result, never the fallback text; when
    the core rejects, the reply is the apology of the handler.  The core
    returns whenever the collaborator throws no [null] and no
    [undefined]. *)
Theorem commands_call_core_within_precondition
    (JSON_parse : jsstring -> option value) (tools : Tools) (text : jsstring) :
  (match tallyArgs text with
   | Refused reply => tallyCommand JSON_parse tools text = reply
   | Accepted topicId approvers threshold =>
       1 ≤ threshold ≤ Z.of_nat (List.length approvers)
       /\ trim topicId = topicId
       /\ Forall (fun x => x <> [] /\ trim x = x
                          /\ Forall (fun c => c <> 44%N) x) approvers
       /\ (forall r,
             tallyApprovals JSON_parse tools topicId approvers threshold
             = Returns r ->
             tallyCommand JSON_parse tools text = ta_message r)
       /\ (forall e,
             tallyApprovals JSON_parse tools topicId approvers threshold
             = Throws e ->
             tallyCommand JSON_parse tools text
             = js "Sorry, failed to tally approvals. Please check the Topic ID and details, and try again.")
       /\ (reportsErrors tools ->
           exists r,
             tallyApprovals JSON_parse tools topicId approvers threshold
             = Returns r
             /\ tallyCommand JSON_parse tools text = ta_message r)
   end)
  /\ (match createArgs text with
      | Refused reply => createCommand JSON_parse tools text = reply
      | Accepted description approvers threshold =>
          1 ≤ threshold ≤ Z.of_nat (List.length approvers)
          /\ trim description = description
          /\ Forall (fun x => x <> [] /\ trim x = x
                             /\ Forall (fun c => c <> 44%N) x) approvers
          /\ (forall r,
                createProposal JSON_parse tools description approvers
                  threshold = Returns r ->
                createCommand JSON_parse tools text = cp_message r)
          /\ (forall e,
                createProposal JSON_parse tools description approvers
                  threshold = Throws e ->
                createCommand JSON_parse tools text
                = js "Sorry, failed to create the proposal. Please check the format and try again.")
          /\ (reportsErrors tools ->
              exists r,
                createProposal JSON_parse tools description approvers
                  threshold = Returns r
                /\ createCommand JSON_parse tools text = cp_message r)
      end).
Proof.
  split.
  - unfold tallyCommand. destruct (tallyArgs text) as [reply|t a n] eqn:Hargs;
      [done|].
    apply parseCommandArgs_accepted in Hargs as (? & ? & ?).
    repeat (split; [done|]).
    assert (Hret : forall r,
              tallyApprovals JSON_parse tools t a n = Returns r ->
              match tallyApprovals JSON_parse tools t a n with
              | Returns result =>
                  orDefault (ta_message result) (js "Tally process completed.")
              | Throws _ =>
                  js "Sorry, failed to tally approvals. Please check the Topic ID and details, and try again."
              end = ta_message r).
    { intros r Hr. rewrite Hr. unfold orDefault.
      rewrite bool_decide_eq_false_2; [done|].
      by apply tally_message_nonempty in Hr. }
    split; [exact Hret|]. split; [by intros e ->|].
    intros (_ & _ & Hread).
    destruct (tallyApprovals_returns_when_errors_reported JSON_parse tools
                t a n (Hread t)) as [r Hr].
    exists r. split; [done|]. by apply Hret.
  - unfold createCommand. destruct (createArgs text) as [reply|d a n] eqn:Hargs;
      [done|].
    apply parseCommandArgs_accepted in Hargs as (? & ? & ?).
    repeat (split; [done|]).
    assert (Hret : forall r,
              createProposal JSON_parse tools d a n = Returns r ->
              match createProposal JSON_parse tools d a n with
              | Returns result =>
                  orDefault (cp_message result)
                            (js "Proposal creation process completed.")
              | Throws _ =>
                  js "Sorry, failed to create the proposal. Please check the format and try again."
              end = cp_message r).
    { intros r Hr. rewrite Hr. unfold orDefault.
      rewrite bool_decide_eq_false_2; [done|].
      by apply createProposal_message_nonempty in Hr. }
    split; [exact Hret|]. split; [by intros e ->|].
    intros Htools.
    destruct (createProposal_returns_or_rejects JSON_parse tools d a n)
      as (_ & Hgood & _).
    destruct (Hgood Htools) as [r Hr].
    exists r. split; [done|]. by apply Hret.
Qed.

Lemma commands_call_core_within_precondition_witness :
  tallyCommand parseJSON (fixedLog (Returns (VArr gearLog)))
    (js "/tally 0.0.5005 | a,b,c | 3")
  = js "Current tally: 2/3 approvals. Need 1 more approval(s)."
  /\ tallyCommand parseJSON nullThrower (js "/tally 0.0.5005 | a,b,c | 3")
     = js "Sorry, failed to tally approvals. Please check the Topic ID and details, and try again."
  /\ createCommand parseJSON nullThrower (js "/create Buy gear | a,b | 1")
     = js "Sorry, failed to create the proposal. Please check the format and try again.".
Proof.
  assert (Htally : tallyArgs (js "/tally 0.0.5005 | a,b,c | 3")
                   = Accepted (js "0.0.5005") [js "a"; js "b"; js "c"] 3)
    by (vm_compute; reflexivity).
  assert (Hcreate : createArgs (js "/create Buy gear | a,b | 1")
                    = Accepted (js "Buy gear") [js "a"; js "b"] 1)
    by (vm_compute; reflexivity).
  split; [|split].
  - destruct (commands_call_core_within_precondition parseJSON
                (fixedLog (Returns (VArr gearLog)))
                (js "/tally 0.0.5005 | a,b,c | 3")) as [Ht _].
    rewrite Htally in Ht. destruct Ht as (_ & _ & _ & Hret & _).
    rewrite (Hret _ eq_refl). vm_compute. reflexivity.
  - destruct (commands_call_core_within_precondition parseJSON nullThrower
                (js "/tally 0.0.5005 | a,b,c | 3")) as [Ht _].
    rewrite Htally in Ht. destruct Ht as (_ & _ & _ & _ & Hrej & _).
    apply (Hrej (ThrownError
                   (js "Cannot read properties of null (reading 'message')"))).
    reflexivity.
  - destruct (commands_call_core_within_precondition parseJSON nullThrower
                (js "/create Buy gear | a,b | 1")) as [_ Hc].
    rewrite Hcreate in Hc. destruct Hc as (_ & _ & _ & _ & Hrej & _).
    apply (Hrej (ThrownError
                   (js "Cannot read properties of null (reading 'message')"))).
    reflexivity.
Defined.

(** ** Linked accounts *)

Lemma js_inj s1 s2 : js s1 = js s2 -> s1 = s2.
Proof.
  unfold js. intros H.
  rewrite <- (string_of_list_ascii_of_string s1),
          <- (string_of_list_ascii_of_string s2).
  f_equal. revert H.
  generalize (list_ascii_of_string s1) (list_ascii_of_string s2).
  induction l as [|a l IH]; intros [|b k]; simpl; try done.
  intros [= Hab Hlk]. f_equal; [|by apply IH].
  rewrite <- (ascii_N_embedding a), <- (ascii_N_embedding b). by rewrite Hab.
Qed.

Lemma numberToString_inj z1 z2 :
  numberToString z1 = numberToString z2 -> z1 = z2.
Proof. unfold numberToString. intros H. by apply (inj pretty), js_inj. Qed.

Lemma submitApproval_accepted tools topicId account s v :
  ToString topicId = Returns s ->
  submitMessage tools topicId (approvalMessage account) = Returns v ->
  submitApproval tools topicId account
  = Returns {| sa_status := js "success";
               sa_message := js "Approval recorded for " ++ account
                             ++ js "." |}.
Proof.
  intros Hs Hv. unfold submitApproval. rewrite Hs.
  cbn [mbind outcome_bind]. by rewrite Hv.
Qed.

Lemma submitApproval_refused tools topicId account s cause :
  ToString topicId = Returns s ->
  submitMessage tools topicId (approvalMessage account) = throwError cause ->
  submitApproval tools topicId account
  = Returns {| sa_status := js "error";
               sa_message := js "Failed to submit approval: " ++ cause |}.
Proof.
  intros Hs Hv. unfold submitApproval. rewrite Hs.
  cbn [mbind outcome_bind]. by rewrite Hv.
Qed.

Lemma submitApproval_rejected tools topicId account s e :
  ToString topicId = Returns s ->
  submitMessage tools topicId (approvalMessage account) = Throws e ->
  nullish e ->
  exists e', submitApproval tools topicId account = Throws e'.
Proof.
  intros Hs Hv He. unfold submitApproval. rewrite Hs.
  cbn [mbind outcome_bind]. rewrite Hv.
  destruct He as [->| ->]; by eexists.
Qed.

(** X13. A successful [/linkaccount] is what [/approve] and the approval
    endpoint later find.  When the text after the command, trimmed, starts
    with [0.0.] and the user id is a safe integer, the account is stored for
    the user and for no other user; after that [/approve] with a topic
    starting with [0.0.] offers the mini-app URL naming the topic and the
    account, and a request to [/api/approve] whose user id and topic are
    truthy and can be rendered, the id rendering as the user's decimal id,
    submits the approval for that account: the answer is the success of
    [submitApproval] when the message is accepted, its error when the
    collaborator throws a value with a message, and status 500 when it
    throws [null] or [undefined].  A user without a link is answered 400 or
    401 by the endpoint and is sent no URL. *)
Theorem linked_account_is_used_for_approval
    (tools : Tools) (now VERCEL_URL : jsstring) (userId : Z)
    (text : jsstring) (links : Links) :
  let account := trim (substring_from (List.length (js "/linkaccount")) text) in
  let links' := (linkaccountCommand now userId text links).1 in
  safeInteger userId ->
  startsWith (js "0.0.") account = true ->
  (userData links' !! userId
   = Some {| hederaAccountId := account; linkedAt := now |}
   /\ serverUserData links' !! numberToString userId = Some account)
  /\ (forall other, safeInteger other -> other <> userId ->
        userData links' !! other = userData links !! other
        /\ serverUserData links' !! numberToString other
           = serverUserData links !! numberToString other)
  /\ (forall approveText,
        let topicId :=
          trim (substring_from (List.length (js "/approve")) approveText) in
        startsWith (js "0.0.") topicId = true ->
        (approveCommand VERCEL_URL userId approveText links').2
        = Some (js "https://" ++ VERCEL_URL ++ js "/approve?topic_id="
                ++ topicId ++ js "&user_account=" ++ account))
  /\ (forall id topicId,
        truthy id = true ->
        truthy topicId = true ->
        invokeToString (js "telegramUserId") id
        = Returns (numberToString userId) ->
        (exists s, ToString id = Returns s) ->
        (exists s, ToString topicId = Returns s) ->
        let answer :=
          apiApprove tools {| telegramUserId := id; body_topicId := topicId |}
            links' in
        let sent := submitMessage tools topicId (js "APPROVE:" ++ account) in
        (forall v, sent = Returns v ->
           answer = Json true (js "Approval recorded for " ++ account
                               ++ js "."))
        /\ (forall cause, sent = Throws (ThrownError cause) ->
              answer = Json false (js "Failed to submit approval: " ++ cause))
        /\ (forall e, sent = Throws e -> nullish e ->
              answer = ErrorStatus 500 (js "An internal error occurred.")))
  /\ (forall other id topicId approveText,
        userData links' !! other = None ->
        serverUserData links' !! numberToString other = None ->
        invokeToString (js "telegramUserId") id
        = Returns (numberToString other) ->
        (approveCommand VERCEL_URL other approveText links').2 = None
        /\ (apiApprove tools
              {| telegramUserId := id; body_topicId := topicId |} links'
            = ErrorStatus 400 (js "Missing data.")
            \/ apiApprove tools
                 {| telegramUserId := id; body_topicId := topicId |} links'
               = ErrorStatus 401
                   (js "User not linked or link not found in this instance."))).
Proof.
  intros account links' Hsafe Hvalid. subst links'.
  assert (Hne : account <> []).
  { intros Heq. rewrite Heq in Hvalid. discriminate Hvalid. }
  unfold linkaccountCommand. fold account.
  rewrite (bool_decide_eq_false_2 _ Hne), Hvalid. cbn [orb negb fst].
  split; [|split; [|split; [|split]]].
  - cbn [userData serverUserData]. by rewrite !lookup_insert_eq.
  - intros other _ Hother. cbn [userData serverUserData]. split.
    + rewrite lookup_insert_ne; [done | congruence].
    + rewrite lookup_insert_ne; [done|].
      intros Heq. apply numberToString_inj in Heq. congruence.
  - intros approveText. cbv zeta. intros Htopic. unfold approveCommand.
    rewrite Htopic. cbn [negb userData snd]. by rewrite lookup_insert_eq.
  - intros id topicId Htruthy Htopic Hkey [s Hs] [s' Hs']. cbv zeta.
    assert (Hanswer :
      apiApprove tools {| telegramUserId := id; body_topicId := topicId |}
        {| userData :=
             <[userId := {| hederaAccountId := account; linkedAt := now |}]>
               (userData links);
           serverUserData :=
             <[numberToString userId := account]> (serverUserData links) |}
      = match submitApproval tools topicId account with
        | Returns result =>
            Json (bool_decide (sa_status result = js "success"))
                 (sa_message result)
        | Throws _ => ErrorStatus 500 (js "An internal error occurred.")
        end).
    { unfold apiApprove.
      cbn [telegramUserId body_topicId serverUserData].
      rewrite Htruthy, Htopic, Hkey. cbn [negb orb].
      rewrite lookup_insert_eq, (bool_decide_eq_false_2 _ Hne), Hs', Hs.
      reflexivity. }
    rewrite Hanswer. split; [|split].
    + intros v Hv.
      by rewrite (submitApproval_accepted _ _ _ _ _ Hs' Hv).
    + intros cause Hc.
      by rewrite (submitApproval_refused _ _ _ _ _ Hs' Hc).
    + intros e He Hnull.
      by destruct (submitApproval_rejected _ _ _ _ _ Hs' He Hnull) as [e' ->].
  - intros other id topicId approveText Hnone Hnone' Hkey. split.
    + unfold approveCommand. destruct (negb _); [done|]. by rewrite Hnone.
    + unfold apiApprove. cbn [telegramUserId body_topicId].
      destruct (_ || _); [by left|]. rewrite Hkey, Hnone'. by right.
Qed.

(** User 42 links account [0.0.777]. *)
Lemma linked_account_is_used_for_approval_witness :
  serverUserData
    (linkaccountCommand (js "2025-01-01T00:00:00.000Z") 42
       (js "/linkaccount 0.0.777 ")
       {| userData := ∅; serverUserData := ∅ |}).1
    !! numberToString 42 = Some (js "0.0.777")
  /\ apiApprove (fixedLog (Returns (VArr [])))
       {| telegramUserId := VNum (js "42");
          body_topicId := VStr (js "0.0.5005") |}
       (linkaccountCommand (js "2025-01-01T00:00:00.000Z") 42
          (js "/linkaccount 0.0.777 ")
          {| userData := ∅; serverUserData := ∅ |}).1
     = Json true (js "Approval recorded for 0.0.777.")
  /\ apiApprove nullThrower
       {| telegramUserId := VNum (js "42");
          body_topicId := VStr (js "0.0.5005") |}
       (linkaccountCommand (js "2025-01-01T00:00:00.000Z") 42
          (js "/linkaccount 0.0.777 ")
          {| userData := ∅; serverUserData := ∅ |}).1
     = ErrorStatus 500 (js "An internal error occurred.")
  /\ (approveCommand (js "approvr.example") 42 (js "/approve 0.0.5005")
        (linkaccountCommand (js "2025-01-01T00:00:00.000Z") 42
           (js "/linkaccount 0.0.777 ")
           {| userData := ∅; serverUserData := ∅ |}).1).2
     = Some (js "https://approvr.example/approve?topic_id=0.0.5005&user_account=0.0.777").
Proof.
  assert (Hsafe : safeInteger 42) by (unfold safeInteger; simpl; lia).
  destruct (linked_account_is_used_for_approval (fixedLog (Returns (VArr [])))
              (js "2025-01-01T00:00:00.000Z") (js "approvr.example") 42
              (js "/linkaccount 0.0.777 ")
              {| userData := ∅; serverUserData := ∅ |} Hsafe eq_refl)
    as ((_ & Hserver) & _ & Hoffer & Hpost & _).
  destruct (linked_account_is_used_for_approval nullThrower
              (js "2025-01-01T00:00:00.000Z") (js "approvr.example") 42
              (js "/linkaccount 0.0.777 ")
              {| userData := ∅; serverUserData := ∅ |} Hsafe eq_refl)
    as (_ & _ & _ & Hnull & _).
  split; [exact Hserver|]. split; [|split].
  - destruct (Hpost (VNum (js "42")) (VStr (js "0.0.5005")) eq_refl eq_refl
                eq_refl ltac:(by eexists) ltac:(by eexists))
      as (Hok & _).
    apply (Hok VUndefined). reflexivity.
  - destruct (Hnull (VNum (js "42")) (VStr (js "0.0.5005")) eq_refl eq_refl
                eq_refl ltac:(by eexists) ltac:(by eexists))
      as (_ & _ & Hrej).
    apply (Hrej ThrownNull); [reflexivity | by left].
  - apply (Hoffer (js "/approve 0.0.5005")). reflexivity.
Defined.

(** ** Answers of the approval endpoint *)

(** X14. The endpoint answers 400 exactly when the user id or the topic id is
    falsy (absent, [null], [false], 0, an empty string), whatever the links
    hold.  It leaves the request unanswered, with an exception outside its
    [try], exactly when neither is falsy and either [telegramUserId.toString()]
    throws, or the user is linked and rendering the topic id or the user id
    for the log line throws.  A request whose user id is a number or a
    string and whose topic id is a number, a string or a boolean is always
    answered, and so is every request of a user without a link whose id can
    be converted.  A user id object with a field named [toString] is
    unanswered, with the [TypeError] naming the receiver. *)
Theorem approval_endpoint_answers
    (tools : Tools) (body : ApproveBody) (links : Links) :
  let id := telegramUserId body in
  let topicId := body_topicId body in
  let missing := truthy id = false \/ truthy topicId = false in
  (missing
   <-> apiApprove tools body links = ErrorStatus 400 (js "Missing data."))
  /\ (forall e,
        apiApprove tools body links = Unhandled e
        <-> ~ missing
            /\ (invokeToString (js "telegramUserId") id = Throws e
                \/ exists key account,
                     invokeToString (js "telegramUserId") id = Returns key
                     /\ serverUserData links !! key = Some account
                     /\ account <> []
                     /\ (ToString topicId = Throws e
                         \/ (exists s, ToString topicId = Returns s)
                            /\ ToString id = Throws e)))
  /\ (typeof id = TNumber \/ typeof id = TString ->
      typeof topicId = TNumber \/ typeof topicId = TString
      \/ typeof topicId = TBoolean ->
      forall e, apiApprove tools body links <> Unhandled e)
  /\ (forall fields toStr v,
        id = VObj fields toStr ->
        lookupField (js "toString") fields = Some v ->
        truthy topicId = true ->
        apiApprove tools body links
        = Unhandled (ThrownError
                       (js "telegramUserId.toString is not a function"))).
Proof.
  intros id topicId missing. subst id topicId missing. unfold apiApprove.
  destruct body as [id topic]. cbn [telegramUserId body_topicId].
  assert (Hguard :
    negb (truthy id) || negb (truthy topic) = true
    <-> truthy id = false \/ truthy topic = false).
  { by rewrite orb_true_iff, !negb_true_iff. }
  destruct (negb (truthy id) || negb (truthy topic)) eqn:Hg.
  - pose proof (proj1 Hguard eq_refl) as Hm.
    split; [done|]. split; [|split].
    + intros e. split; [done|]. by intros [? _].
    + done.
    + intros fields toStr v -> _ Ht. rewrite Ht in Hg. discriminate Hg.
  - assert (Hnot : ~ (truthy id = false \/ truthy topic = false)).
    { intros H. apply Hguard in H. discriminate H. }
    destruct (invokeToString (js "telegramUserId") id) as [key|e0] eqn:Hkey.
    + destruct (serverUserData links !! key) as [account|] eqn:Hlink.
      * case_bool_decide as Hacc.
        { split; [|split; [|split]].
          - split; [done|]. done.
          - intros e. split; [done|].
            intros [_ [[=]|(key' & account' & [= <-] & Hl & Hne & _)]].
            rewrite Hlink in Hl. injection Hl as <-. done.
          - done.
          - intros fields toStr v -> Hf _. cbn [invokeToString toStringMethod] in Hkey.
            rewrite Hf in Hkey. cbn [default throwError] in Hkey.
            discriminate Hkey. }
        destruct (ToString topic) as [s|e1] eqn:Hs;
          cbn [mbind outcome_bind].
        -- destruct (ToString id) as [s'|e2] eqn:Hs'.
           ++ assert (Hanswered : forall e,
                match submitApproval tools topic account with
                | Returns result =>
                    Json (bool_decide (sa_status result = js "success"))
                         (sa_message result)
                | Throws _ =>
                    ErrorStatus 500 (js "An internal error occurred.")
                end <> Unhandled e
                /\ match submitApproval tools topic account with
                   | Returns result =>
                       Json (bool_decide (sa_status result = js "success"))
                            (sa_message result)
                   | Throws _ =>
                       ErrorStatus 500 (js "An internal error occurred.")
                   end <> ErrorStatus 400 (js "Missing data.")).
              { intros e. by destruct (submitApproval tools topic account). }
              split; [|split; [|split]].
              ** split; [done|]. intros H.
                 by destruct (proj2 (Hanswered ThrownNull) H).
              ** intros e. split.
                 --- intros H. by destruct (proj1 (Hanswered e) H).
                 --- intros [_ [[=]|(key' & account' & _ & _ & _
                                     & [[=]|[_ [=]]])]].
              ** intros _ _ e. apply (Hanswered e).
              ** intros fields toStr v -> Hf _. cbn [invokeToString toStringMethod] in Hkey.
            rewrite Hf in Hkey. cbn [default throwError] in Hkey. discriminate Hkey.
           ++ split; [|split; [|split]].
              ** split; [done|]. done.
              ** intros e. split.
                 --- intros [= <-]. split; [done|]. right.
                     exists key, account. repeat (split; [done|]).
                     right. split; [by eexists | done].
                 --- intros [_ [[=]|(key' & account' & _ & _ & _
                                     & [[=]|[_ [= <-]]])]]. done.
              ** intros [Hty|Hty] _ e; destruct id; try discriminate Hty;
                   discriminate Hs'.
              ** intros fields toStr v -> Hf _. cbn [invokeToString toStringMethod] in Hkey.
            rewrite Hf in Hkey. cbn [default throwError] in Hkey. discriminate Hkey.
        -- split; [|split; [|split]].
           ++ split; [done|]. done.
           ++ intros e. split.
              ** intros [= <-]. split; [done|]. right.
                 exists key, account. repeat (split; [done|]). by left.
              ** intros [_ [[=]|(key' & account' & _ & _ & _
                                 & [[= <-]|[[? [=]] _]])]]. done.
           ++ intros _ [Hty|[Hty|Hty]] e; destruct topic;
                try discriminate Hty; try discriminate Hs.
              destruct b; discriminate Hs.
           ++ intros fields toStr v -> Hf _. cbn [invokeToString toStringMethod] in Hkey.
            rewrite Hf in Hkey. cbn [default throwError] in Hkey. discriminate Hkey.
      * split; [|split; [|split]].
        -- split; [done|]. done.
        -- intros e. split; [done|].
           intros [_ [[=]|(key' & account' & [= <-] & Hl & _)]].
           rewrite Hlink in Hl. discriminate Hl.
        -- done.
        -- intros fields toStr v -> Hf _. cbn [invokeToString toStringMethod] in Hkey.
            rewrite Hf in Hkey. cbn [default throwError] in Hkey.
           discriminate Hkey.
    + split; [|split; [|split]].
      * split; [done|]. done.
      * intros e. split.
        -- intros [= <-]. split; [done|]. by left.
        -- intros [_ [[= <-]|(key' & account' & [=] & _)]]. done.
      * intros [Hty|Hty] _ e; destruct id; try discriminate Hty;
          discriminate Hkey.
      * intros fields toStr v -> Hf _. cbn [invokeToString toStringMethod] in Hkey.
            rewrite Hf in Hkey. cbn [default throwError] in Hkey.
        by injection Hkey as <-.
Qed.

Lemma approval_endpoint_answers_witness :
  apiApprove (fixedLog (Returns (VArr [])))
    {| telegramUserId := VNum (js "0");
       body_topicId := VStr (js "0.0.5005") |}
    {| userData := ∅; serverUserData := ∅ |}
  = ErrorStatus 400 (js "Missing data.")
  /\ apiApprove (fixedLog (Returns (VArr [])))
       {| telegramUserId := VNum (js "42"); body_topicId := VUndefined |}
       {| userData := ∅; serverUserData := ∅ |}
     = ErrorStatus 400 (js "Missing data.")
  /\ apiApprove (fixedLog (Returns (VArr [])))
       {| telegramUserId := plainObject [(js "toString", VNum (js "1"))];
          body_topicId := VStr (js "0.0.5005") |}
       {| userData := ∅; serverUserData := ∅ |}
     = Unhandled (ThrownError (js "telegramUserId.toString is not a function")).
Proof.
  split; [|split].
  - destruct (approval_endpoint_answers (fixedLog (Returns (VArr [])))
                {| telegramUserId := VNum (js "0");
                   body_topicId := VStr (js "0.0.5005") |}
                {| userData := ∅; serverUserData := ∅ |}) as ([Hmissing _] & _).
    apply Hmissing. left. reflexivity.
  - destruct (approval_endpoint_answers (fixedLog (Returns (VArr [])))
                {| telegramUserId := VNum (js "42");
                   body_topicId := VUndefined |}
                {| userData := ∅; serverUserData := ∅ |}) as ([Hmissing _] & _).
    apply Hmissing. right. reflexivity.
  - destruct (approval_endpoint_answers (fixedLog (Returns (VArr [])))
                {| telegramUserId := plainObject [(js "toString", VNum (js "1"))];
                   body_topicId := VStr (js "0.0.5005") |}
                {| userData := ∅; serverUserData := ∅ |})
      as (_ & _ & _ & Hfield).
    apply (Hfield [(js "toString", VNum (js "1"))]
             (Some (Returns (js "[object Object]"))) (VNum (js "1")));
      reflexivity.
Defined.

(** The two commands on concrete texts. *)
Example tally_command_ex :
  tallyArgs (js "/tally 0.0.5005 | a, b ,,c | 2")
  = Accepted (js "0.0.5005") [js "a"; js "b"; js "c"] 2
  /\ tallyArgs (js "/tally 0.0.5005 | a,b | 3")
     = Refused (js "Invalid threshold for tally. It must be a number between 1 and the number of approvers provided.")
  /\ tallyArgs (js "/tally 0.0.5005 a,b 1")
     = Refused (js "Invalid format. Please use: /tally <topic_id> | <approver1,approver2,...> | <threshold>")
  /\ tallyCommand parseJSON (fixedLog (Returns (VArr gearLog)))
       (js "/tally 0.0.5005 | a,b,c | 3")
     = js "Current tally: 2/3 approvals. Need 1 more approval(s)."
  /\ tallyCommand parseJSON nullThrower (js "/tally 0.0.5005 | a,b,c | 3")
     = js "Sorry, failed to tally approvals. Please check the Topic ID and details, and try again.".
Proof. vm_compute. repeat split. Qed.
